(** * OmniChat backend: message dispatch, AI replies and presence events

    A shallow embedding of [backend/server.py].  The handlers of the FastAPI
    router and of the Socket.IO server become functions over an explicit
    [World]: the three MongoDB collections, the room table of the Socket.IO
    manager, the packets sent so far, and the error log.  Python exceptions
    are a result constructor, so that what a handler did before it raised
    stays visible in the world it leaves behind. *)

From stdpp Require Import base decidable option strings list gmap.

Local Open Scope string_scope.
Local Open Scope list_scope.
Local Open Scope Z_scope.

(** ** Python values *)

(** A [datetime] is an instant on the UTC time line. *)
Definition datetime := Z.

(** The scalar values that occur in documents and event payloads.
    [PyIso t] is the [str] that [t.isoformat()] returns; it is kept apart
    from [PyStr] so that the instant can be read back from a stored
    document. *)
Inductive pyval :=
| PyNone
| PyBool (b : bool)
| PyInt (n : Z)
| PyStr (s : string)
| PyStrs (l : list string)
| PyDatetime (t : datetime)
| PyIso (t : datetime).

Global Instance pyval_eq_dec : EqDecision pyval.
Proof. solve_decision. Defined.

(** Truth value of an object, as [if x:] tests it. *)
Definition truthy (v : pyval) : bool :=
  match v with
  | PyNone => false
  | PyBool b => b
  | PyInt n => negb (n =? 0)
  | PyStr s => negb (String.eqb s "")
  | PyStrs l => negb (bool_decide (l = []))
  | PyDatetime _ => true
  | PyIso _ => true
  end.

(** A [dict] with string keys. *)
Abbreviation pydict := (gmap string pyval).

(** [d.get(k)]: the value, or [None] when the key is absent. *)
Definition get (d : pydict) (k : string) : pyval := default PyNone (d !! k).

(** [s[:n]] *)
Definition slice_to (n : nat) (s : string) : string := String.substring 0 n s.

(** [len(s)] *)
Definition len (s : string) : Z := Z.of_nat (String.length s).

(** ** Models (pydantic) *)

Module Message.
Record t := mk {
  id : string;
  sender_id : string;
  sender_username : string;
  content : string;
  message_type : string;
  timestamp : datetime;
  conversation_id : string }.

Definition dict (m : t) : pydict :=
  <["id" := PyStr (id m)]>
  (<["sender_id" := PyStr (sender_id m)]>
  (<["sender_username" := PyStr (sender_username m)]>
  (<["content" := PyStr (content m)]>
  (<["message_type" := PyStr (message_type m)]>
  (<["timestamp" := PyDatetime (timestamp m)]>
  (<["conversation_id" := PyStr (conversation_id m)]> ∅)))))).
End Message.

Module MessageCreate.
Record t := mk {
  content : string;
  sender_id : string;
  sender_username : string;
  conversation_id : string;
  message_type : string }.
End MessageCreate.

Module Conversation.
Record t := mk {
  id : string;
  name : string;
  participants : list string;
  created_at : datetime;
  last_message : option string;
  last_activity : datetime }.

Definition dict (c : t) : pydict :=
  <["id" := PyStr (id c)]>
  (<["name" := PyStr (name c)]>
  (<["participants" := PyStrs (participants c)]>
  (<["created_at" := PyDatetime (created_at c)]>
  (<["last_message" := from_option PyStr PyNone (last_message c)]>
  (<["last_activity" := PyDatetime (last_activity c)]> ∅))))).
End Conversation.

Module ConversationCreate.
Record t := mk {
  name : string;
  participants : list string }.
End ConversationCreate.

(** ** Helper functions *)

Definition prepare_value (v : pyval) : pyval :=
  match v with
  | PyDatetime t => PyIso t
  | _ => v
  end.

Definition prepare_for_mongo (data : pydict) : pydict := prepare_value <$> data.

(** ** The world the handlers run in *)

(** A packet handed to the transport: recipient, event name, payload. *)
Definition packet : Type := string * string * pydict.

Record World := mkWorld {
  db_users : list pydict;
  db_conversations : list pydict;
  db_messages : list pydict;
  sio_rooms : list (pyval * string);
  sio_sent : list packet;
  clock_reads : nat;
  uuid_draws : nat;
  log : list string }.

Definition set_db_users (w : World) (x : list pydict) : World :=
  mkWorld x (db_conversations w) (db_messages w) (sio_rooms w) (sio_sent w)
          (clock_reads w) (uuid_draws w) (log w).
Definition set_db_conversations (w : World) (x : list pydict) : World :=
  mkWorld (db_users w) x (db_messages w) (sio_rooms w) (sio_sent w)
          (clock_reads w) (uuid_draws w) (log w).
Definition set_db_messages (w : World) (x : list pydict) : World :=
  mkWorld (db_users w) (db_conversations w) x (sio_rooms w) (sio_sent w)
          (clock_reads w) (uuid_draws w) (log w).
Definition set_sio_rooms (w : World) (x : list (pyval * string)) : World :=
  mkWorld (db_users w) (db_conversations w) (db_messages w) x (sio_sent w)
          (clock_reads w) (uuid_draws w) (log w).
Definition set_sio_sent (w : World) (x : list packet) : World :=
  mkWorld (db_users w) (db_conversations w) (db_messages w) (sio_rooms w) x
          (clock_reads w) (uuid_draws w) (log w).
Definition set_clock_reads (w : World) (x : nat) : World :=
  mkWorld (db_users w) (db_conversations w) (db_messages w) (sio_rooms w)
          (sio_sent w) x (uuid_draws w) (log w).
Definition set_uuid_draws (w : World) (x : nat) : World :=
  mkWorld (db_users w) (db_conversations w) (db_messages w) (sio_rooms w)
          (sio_sent w) (clock_reads w) x (log w).
Definition set_log (w : World) (x : list string) : World :=
  mkWorld (db_users w) (db_conversations w) (db_messages w) (sio_rooms w)
          (sio_sent w) (clock_reads w) (uuid_draws w) x.

Definition empty_world : World := mkWorld [] [] [] [] [] 0 0 [].

(** ** Results and exceptions *)

Inductive Exception := Exc (message : string).

Definition str (e : Exception) : string := let 'Exc m := e in m.

Inductive result (A : Type) :=
| Returned (a : A)
| Raised (e : Exception).
Arguments Returned {A} a.
Arguments Raised {A} e.

(** A handler step: runs in a world, returns or raises, and leaves a world.
    There is no roll-back: the world left by a raise keeps every effect that
    came before it. *)
Definition Handler (A : Type) : Type := World → result A * World.

Global Instance handler_ret : MRet Handler := λ A a w, (Returned a, w).

Global Instance handler_bind : MBind Handler := λ A B k m w,
  match m w with
  | (Returned a, w') => k a w'
  | (Raised e, w') => (Raised e, w')
  end.

Definition raise {A} (e : Exception) : Handler A := λ w, (Raised e, w).

(** [try: m except Exception as e: h e] *)
Definition try_except {A} (m : Handler A) (h : Exception → Handler A) : Handler A :=
  λ w, match m w with
       | (Returned a, w') => (Returned a, w')
       | (Raised e, w') => h e w'
       end.

(** ** Collaborators

    What the services outside the process answer while one request is
    handled: the language-model call, the two MongoDB writes and the
    Socket.IO emit.  [None] is the normal answer of a write; [Some e] makes
    the awaited call raise [e] and change nothing. *)
Record Env := mkEnv {
  send_message : result string;
  insert_one_error : option Exception;
  update_one_error : option Exception;
  emit_error : option Exception }.

(** Every collaborator answers. *)
Definition healthy (text : string) : Env := mkEnv (Returned text) None None None.

(** *** MongoDB collections *)

(** A document matches a query when it carries each field of the query with
    the queried value. *)
Definition matches (query doc : pydict) : bool :=
  bool_decide (map_Forall (λ k v, doc !! k = Some v) query).

(** [find_one]: the first matching document. *)
Fixpoint find_one (query : pydict) (coll : list pydict) : option pydict :=
  match coll with
  | [] => None
  | doc :: rest => if matches query doc then Some doc else find_one query rest
  end.

(** [update_one(query, {"$set": fields})]: the first matching document gets
    the fields; without a match the collection stays as it is. *)
Fixpoint update_first (query fields : pydict) (coll : list pydict) : list pydict :=
  match coll with
  | [] => []
  | doc :: rest =>
      if matches query doc then (fields ∪ doc) :: rest
      else doc :: update_first query fields rest
  end.

Definition fail_or (err : option Exception) (f : World → World) : Handler unit :=
  λ w, match err with
       | Some e => (Raised e, w)
       | None => (Returned tt, f w)
       end.

Definition db_users_update_one (env : Env) (query fields : pydict) : Handler unit :=
  fail_or (update_one_error env)
          (λ w, set_db_users w (update_first query fields (db_users w))).

Definition db_conversations_insert_one (env : Env) (doc : pydict) : Handler unit :=
  fail_or (insert_one_error env)
          (λ w, set_db_conversations w (db_conversations w ++ [doc])).

Definition db_conversations_update_one (env : Env) (query fields : pydict) : Handler unit :=
  fail_or (update_one_error env)
          (λ w, set_db_conversations w (update_first query fields (db_conversations w))).

Definition db_messages_insert_one (env : Env) (doc : pydict) : Handler unit :=
  fail_or (insert_one_error env)
          (λ w, set_db_messages w (db_messages w ++ [doc])).

(** *** Socket.IO server

    The manager keeps, for every room, the sessions in it.  The room [None]
    holds every connected session and each session is alone in the room
    named by its own sid; both are entered when the session connects. *)

Definition participants (room : pyval) (rooms : list (pyval * string)) : list string :=
  (filter (λ p, p.1 = room) rooms).*2.

Definition sio_connect (sid : string) : Handler unit := λ w,
  (Returned tt,
   set_sio_rooms w (sio_rooms w ++ [(PyNone, sid); (PyStr sid, sid)])).

Definition sio_disconnect (sid : string) : Handler unit := λ w,
  (Returned tt, set_sio_rooms w (filter (λ p, p.2 ≠ sid) (sio_rooms w))).

Definition sio_enter_room (sid : string) (room : pyval) : Handler unit := λ w,
  (Returned tt,
   if bool_decide ((room, sid) ∈ sio_rooms w) then w
   else set_sio_rooms w (sio_rooms w ++ [(room, sid)])).

Definition sio_leave_room (sid : string) (room : pyval) : Handler unit := λ w,
  (Returned tt, set_sio_rooms w (filter (λ p, p ≠ (room, sid)) (sio_rooms w))).

(** [sio.emit(event, data, room=room, skip_sid=skip_sid)]: one packet for
    each session of the room, the skipped one apart. *)
Definition recipients (room : pyval) (skip_sid : option string)
    (rooms : list (pyval * string)) : list string :=
  filter (λ sid, Some sid ≠ skip_sid) (participants room rooms).

Definition sio_emit (env : Env) (event : string) (data : pydict)
    (room : pyval) (skip_sid : option string) : Handler unit :=
  fail_or (emit_error env)
          (λ w, set_sio_sent w
                  (sio_sent w ++
                   ((λ sid, (sid, event, data)) <$>
                      recipients room skip_sid (sio_rooms w)))).

(** *** Logging *)

Definition logging_error (line : string) : Handler unit := λ w,
  (Returned tt, set_log w (log w ++ [line])).

(** ** Observations *)

(** The conversation document a summary update for [conversation_id] would
    reach: the first one carrying that id. *)
Definition conversation_doc (conversation_id : string) (w : World) : option pydict :=
  find_one {["id" := PyStr conversation_id]} (db_conversations w).

Definition last_message_of (conversation_id : string) (w : World) : option pyval :=
  doc ← conversation_doc conversation_id w; doc !! "last_message".

(** The stored [last_activity], read back as an instant. *)
Definition last_activity_of (conversation_id : string) (w : World) : option datetime :=
  doc ← conversation_doc conversation_id w;
  match doc !! "last_activity" with
  | Some (PyIso t) => Some t
  | _ => None
  end.

(** The packets a handler run added to those sent before. *)
Definition sent_since (w w' : World) : list packet :=
  drop (length (sio_sent w)) (sio_sent w').

(** The payload the AI route answers with when anything in it raised. *)
Definition error_payload : pydict := {["error" := PyStr "AI response failed"]}.

(** The fields of an update leave the queried keys alone. *)
Definition untouched (query fields : pydict) : Prop :=
  ∀ k, is_Some (query !! k) → fields !! k = None.

(** The fields a summary update sets. *)
Definition summary (last_message : string) (last_activity : datetime) : pydict :=
  <["last_message" := PyStr last_message]> {["last_activity" := PyIso last_activity]}.

(** The preview rule of the pipeline: content longer than 50 characters is
    cut to its first 50 and gets the ellipsis marker. *)
Definition preview (content : string) : string :=
  if 50 <? len content then slice_to 50 content +:+ "..." else content.

(** ** Handlers *)

(** What a route hands back to FastAPI: a model instance or a plain dict. *)
Inductive response :=
| RespMessage (m : Message.t)
| RespConversation (c : Conversation.t)
| RespDict (d : pydict).

Section Server.

(** The wall clock and the UUID generator: the [n]-th reading of each. *)
Variable clock : nat → datetime.
Variable uuid4 : nat → string.

(** [datetime.now(timezone.utc)] *)
Definition now : Handler datetime := λ w,
  (Returned (clock (clock_reads w)), set_clock_reads w (S (clock_reads w))).

(** [str(uuid.uuid4())] *)
Definition new_uuid : Handler string := λ w,
  (Returned (uuid4 (uuid_draws w)), set_uuid_draws w (S (uuid_draws w))).

(** [Message(...)] with [id] and [timestamp] left to their default
    factories. *)
Definition new_Message (sender_id sender_username content message_type
    conversation_id : string) : Handler Message.t :=
  id ← new_uuid;
  timestamp ← now;
  mret (Message.mk id sender_id sender_username content message_type
                   timestamp conversation_id).

(** [Conversation] built from the fields of [conv_data], the rest left to
    their defaults. *)
Definition new_Conversation (conv_data : ConversationCreate.t) : Handler Conversation.t :=
  id ← new_uuid;
  created_at ← now;
  last_activity ← now;
  mret (Conversation.mk id (ConversationCreate.name conv_data)
                        (ConversationCreate.participants conv_data)
                        created_at None last_activity).

Definition update_user_status (env : Env) (user_id status : string) : Handler pydict :=
  db_users_update_one env {["id" := PyStr user_id]} {["status" := PyStr status]};;
  sio_emit env "user_status_changed"
           (<["user_id" := PyStr user_id]> {["status" := PyStr status]})
           PyNone None;;
  mret {["success" := PyBool true]}.

Definition create_conversation (env : Env) (conv_data : ConversationCreate.t)
    : Handler Conversation.t :=
  conversation ← new_Conversation conv_data;
  let conv_dict := prepare_for_mongo (Conversation.dict conversation) in
  db_conversations_insert_one env conv_dict;;
  mret conversation.

Definition create_message (env : Env) (msg_data : MessageCreate.t) : Handler Message.t :=
  message ← new_Message (MessageCreate.sender_id msg_data)
                        (MessageCreate.sender_username msg_data)
                        (MessageCreate.content msg_data)
                        (MessageCreate.message_type msg_data)
                        (MessageCreate.conversation_id msg_data);
  let msg_dict := prepare_for_mongo (Message.dict message) in
  db_messages_insert_one env msg_dict;;
  (* Update conversation last activity *)
  last_activity ← now;
  db_conversations_update_one env
    {["id" := PyStr (MessageCreate.conversation_id msg_data)]}
    (<["last_message" :=
         PyStr (if 50 <? len (MessageCreate.content msg_data)
                then slice_to 50 (MessageCreate.content msg_data) +:+ "..."
                else MessageCreate.content msg_data)]>
     {["last_activity" := PyIso last_activity]});;
  (* Emit to all users in conversation *)
  sio_emit env "new_message" (Message.dict message)
           (PyStr (MessageCreate.conversation_id msg_data)) None;;
  mret message.

Definition ai_chat_response (env : Env) (msg_data : MessageCreate.t) : Handler response :=
  try_except
    ((* Get AI response *)
     ai_response ← (λ w, (send_message env, w));
     (* Create AI message *)
     ai_msg ← new_Message "ai-assistant" "AI Assistant" ai_response "ai_response"
                          (MessageCreate.conversation_id msg_data);
     let ai_msg_dict := prepare_for_mongo (Message.dict ai_msg) in
     db_messages_insert_one env ai_msg_dict;;
     (* Update conversation *)
     last_activity ← now;
     db_conversations_update_one env
       {["id" := PyStr (MessageCreate.conversation_id msg_data)]}
       (<["last_message" :=
            PyStr ("AI: " +:+ (if 50 <? len ai_response
                               then slice_to 50 ai_response +:+ "..."
                               else ai_response))]>
        {["last_activity" := PyIso last_activity]});;
     (* Emit AI response *)
     sio_emit env "new_message" (Message.dict ai_msg)
              (PyStr (MessageCreate.conversation_id msg_data)) None;;
     mret (RespMessage ai_msg))
    (λ e,
       logging_error ("AI chat error: " +:+ str e);;
       mret (RespDict {["error" := PyStr "AI response failed"]})).

(** *** Socket.IO events *)

Definition join_conversation (env : Env) (sid : string) (data : pydict) : Handler unit :=
  let conversation_id := get data "conversation_id" in
  if truthy conversation_id then
    sio_enter_room sid conversation_id;;
    sio_emit env "joined_conversation" {["conversation_id" := conversation_id]}
             (PyStr sid) None
  else mret tt.

Definition leave_conversation (sid : string) (data : pydict) : Handler unit :=
  let conversation_id := get data "conversation_id" in
  if truthy conversation_id then sio_leave_room sid conversation_id
  else mret tt.

Definition typing_start (env : Env) (sid : string) (data : pydict) : Handler unit :=
  let conversation_id := get data "conversation_id" in
  let user_id := get data "user_id" in
  let username := get data "username" in
  if truthy conversation_id then
    sio_emit env "user_typing"
             (<["user_id" := user_id]>
              (<["username" := username]> {["typing" := PyBool true]}))
             conversation_id (Some sid)
  else mret tt.

Definition typing_stop (env : Env) (sid : string) (data : pydict) : Handler unit :=
  let conversation_id := get data "conversation_id" in
  let user_id := get data "user_id" in
  if truthy conversation_id then
    sio_emit env "user_typing"
             (<["user_id" := user_id]> {["typing" := PyBool false]})
             conversation_id (Some sid)
  else mret tt.

(** The message each route builds in world [w]: its id and timestamp are
    the next draws of the generator and of the clock. *)
Definition human_message (msg_data : MessageCreate.t) (w : World) : Message.t :=
  Message.mk (uuid4 (uuid_draws w))
             (MessageCreate.sender_id msg_data)
             (MessageCreate.sender_username msg_data)
             (MessageCreate.content msg_data)
             (MessageCreate.message_type msg_data)
             (clock (clock_reads w))
             (MessageCreate.conversation_id msg_data).

Definition ai_message (text : string) (msg_data : MessageCreate.t) (w : World) : Message.t :=
  Message.mk (uuid4 (uuid_draws w)) "ai-assistant" "AI Assistant" text
             "ai_response" (clock (clock_reads w))
             (MessageCreate.conversation_id msg_data).

(** *** Sequences of requests *)

Inductive request :=
| CreateConversation (conv_data : ConversationCreate.t)
| CreateMessage (msg_data : MessageCreate.t)
| AiChat (msg_data : MessageCreate.t).

Definition serve (env : Env) (req : request) : Handler response :=
  match req with
  | CreateConversation conv_data =>
      conversation ← create_conversation env conv_data;
      mret (RespConversation conversation)
  | CreateMessage msg_data =>
      message ← create_message env msg_data;
      mret (RespMessage message)
  | AiChat msg_data => ai_chat_response env msg_data
  end.

(** The requests are served one after the other, each with the answers its
    collaborators give it. *)
Definition serve_all (reqs : list (Env * request)) (w : World) : World :=
  foldl (λ w er, (serve er.1 er.2 w).2) w reqs.

(** The clock never runs backwards. *)
Definition monotone : Prop := ∀ i j : nat, (i ≤ j)%nat → clock i ≤ clock j.

(** No conversation document carries an activity instant later than the
    present reading of the clock. *)
Definition activities_past (w : World) : Prop :=
  ∀ doc t, doc ∈ db_conversations w →
           doc !! "last_activity" = Some (PyIso t) → t ≤ clock (clock_reads w).

(** What a request can do to the conversations collection. *)
Inductive conv_step (w w' : World) : Prop :=
| conv_step_same :
    db_conversations w' = db_conversations w →
    (clock_reads w ≤ clock_reads w')%nat →
    conv_step w w'
| conv_step_update conversation_id last_message k :
    db_conversations w' =
      update_first {["id" := PyStr conversation_id]}
                   (summary last_message (clock k)) (db_conversations w) →
    (clock_reads w ≤ k)%nat → (k < clock_reads w')%nat →
    conv_step w w'
| conv_step_insert doc k :
    db_conversations w' = db_conversations w ++ [doc] →
    doc !! "last_activity" = Some (PyIso (clock k)) →
    (clock_reads w ≤ k)%nat → (k < clock_reads w')%nat →
    conv_step w w'.

End Server.

(** ** A small deployment

    Concrete inputs on which the handlers are run further down: a clock
    that advances by one at each reading, distinct ids, one conversation
    "c1" and two connected sessions that both joined its room. *)

Definition tick_clock (n : nat) : datetime := Z.of_nat n.

Fixpoint counting_uuid (n : nat) : string :=
  match n with
  | O => "id"
  | S k => counting_uuid k +:+ "'"
  end.

Definition general : pydict :=
  prepare_for_mongo
    (Conversation.dict (Conversation.mk "c1" "general" ["u1"; "u2"] 0 None 0)).

Definition lobby : World :=
  mkWorld [] [general] []
          [(PyNone, "s1"); (PyStr "s1", "s1"); (PyNone, "s2"); (PyStr "s2", "s2");
           (PyStr "c1", "s1"); (PyStr "c1", "s2")]
          [] 0 0 [].

(** The same store with no session connected.  The payload of a
    [new_message] emit is [message.dict()], which still holds the timestamp
    as a datetime object; the server encodes a payload as JSON once a
    session is connected, and that encoding raises on a datetime.  The
    raise is one of those [emit_error] stands for, so the runs in which the
    emit of a message returns are taken here, where nothing has to be
    encoded. *)
Definition quiet : World := mkWorld [] [general] [] [] [] 0 0 [].

Definition hello : MessageCreate.t :=
  MessageCreate.mk "hello" "u1" "alice" "c1" "text".

(** Sixty characters. *)
Definition long_hello : MessageCreate.t :=
  MessageCreate.mk "0123456789abcdefghij0123456789abcdefghij0123456789abcdefghij"
                   "u1" "alice" "c1" "text".

(** A submission for a conversation nobody created. *)
Definition stray : MessageCreate.t :=
  MessageCreate.mk "hello" "u1" "alice" "nowhere" "text".

(** What the AI route would build for the reply "hello", handed to the
    message route instead. *)
Definition hello_as_ai : MessageCreate.t :=
  MessageCreate.mk "hello" "ai-assistant" "AI Assistant" "c1" "ai_response".

Definition llm_down : Env := mkEnv (Raised (Exc "timeout")) None None None.

Definition insert_down : Env :=
  mkEnv (Returned "hello") (Some (Exc "not primary")) None None.

Definition update_down : Env :=
  mkEnv (Returned "hello") None (Some (Exc "not primary")) None.

Definition alice_typing : pydict :=
  <["conversation_id" := PyStr "c1"]>
  (<["user_id" := PyStr "u1"]> {["username" := PyStr "alice"]}).

(** ** Users and the listing routes *)

Module User.
Record t := mk {
  id : string;
  username : string;
  email : string;
  avatar_url : option string;
  status : string;
  created_at : datetime }.

Definition dict (u : t) : pydict :=
  <["id" := PyStr (id u)]>
  (<["username" := PyStr (username u)]>
  (<["email" := PyStr (email u)]>
  (<["avatar_url" := from_option PyStr PyNone (avatar_url u)]>
  (<["status" := PyStr (status u)]>
  (<["created_at" := PyDatetime (created_at u)]> ∅))))).
End User.

Module UserCreate.
Record t := mk {
  username : string;
  email : string;
  avatar_url : option string }.
End UserCreate.

(** [s.endswith(suffix)]: some tail of [s] is the suffix. *)
Fixpoint endswith (s suffix : string) : bool :=
  String.eqb s suffix ||
  match s with
  | EmptyString => false
  | String _ s' => endswith s' suffix
  end.

(** [find(query)] is a cursor over the matching documents in insertion
    order, and [to_list(n)] takes its first [n]. *)
Definition find (query : pydict) (coll : list pydict) : list pydict :=
  filter (λ doc, matches query doc = true) coll.

Definition to_list (n : nat) (cursor : list pydict) : list pydict := take n cursor.

(** A list comprehension whose element expression may raise: the first
    raise ends it. *)
Fixpoint each {A B} (f : A → result B) (l : list A) : result (list B) :=
  match l with
  | [] => Returned []
  | x :: rest =>
      match f x with
      | Raised e => Raised e
      | Returned y =>
          match each f rest with
          | Raised e => Raised e
          | Returned ys => Returned (y :: ys)
          end
      end
  end.

Definition db_users_insert_one (env : Env) (doc : pydict) : Handler unit :=
  fail_or (insert_one_error env)
          (λ w, set_db_users w (db_users w ++ [doc])).

Section Listing.

Variable clock : nat → datetime.
Variable uuid4 : nat → string.

(** [datetime.fromisoformat] on a string that is not known to come from
    [isoformat]: the instant, or [None] where it raises. *)
Variable fromisoformat : string → option datetime.

(** The model constructors called with the items of a document as keyword
    arguments: pydantic's validation, which returns the instance or
    raises. *)
Variable User_validate : pydict → result User.t.
Variable Conversation_validate : pydict → result Conversation.t.
Variable Message_validate : pydict → result Message.t.

(** What [parse_from_mongo] does to one item of the dict: a [str] under a
    key ending in [_at] is replaced by the datetime it parses to, and is
    left alone when the parse raises. *)
Definition parse_field (key : string) (value : pyval) : pyval :=
  if endswith key "_at" then
    match value with
    | PyIso t => PyDatetime t
    | PyStr s =>
        match fromisoformat s with
        | Some t => PyDatetime t
        | None => value
        end
    | _ => value
    end
  else value.

Definition parse_from_mongo (item : pydict) : pydict :=
  map_imap (λ key value, Some (parse_field key value)) item.

(** [User] built from the fields of [user_data], the rest left to their
    defaults. *)
Definition new_User (user_data : UserCreate.t) : Handler User.t :=
  id ← new_uuid uuid4;
  created_at ← now clock;
  mret (User.mk id (UserCreate.username user_data) (UserCreate.email user_data)
                (UserCreate.avatar_url user_data) "offline" created_at).

Definition create_user (env : Env) (user_data : UserCreate.t) : Handler User.t :=
  user ← new_User user_data;
  let user_dict := prepare_for_mongo (User.dict user) in
  db_users_insert_one env user_dict;;
  mret user.

(** The listing routes await one [find(...).to_list(1000)]; [find_error]
    is what that call raises, if it does. *)
Definition get_users (find_error : option Exception) : Handler (list User.t) := λ w,
  match find_error with
  | Some e => (Raised e, w)
  | None =>
      let users := to_list 1000 (find ∅ (db_users w)) in
      (each (λ user, User_validate (parse_from_mongo user)) users, w)
  end.

Definition get_conversations (find_error : option Exception)
    : Handler (list Conversation.t) := λ w,
  match find_error with
  | Some e => (Raised e, w)
  | None =>
      let conversations := to_list 1000 (find ∅ (db_conversations w)) in
      (each (λ conv, Conversation_validate (parse_from_mongo conv)) conversations, w)
  end.

Definition get_messages (find_error : option Exception) (conversation_id : string)
    : Handler (list Message.t) := λ w,
  match find_error with
  | Some e => (Raised e, w)
  | None =>
      let messages :=
        to_list 1000
          (find {["conversation_id" := PyStr conversation_id]} (db_messages w)) in
      (each (λ msg, Message_validate (parse_from_mongo msg)) messages, w)
  end.

End Listing.

(** A stand-in for the validation of a message document, for running the
    listing route on the small deployment: string fields must be strings,
    and the timestamp may be a datetime or the string [isoformat] gave. *)
Definition field_str (doc : pydict) (key : string) : option string :=
  match doc !! key with
  | Some (PyStr s) => Some s
  | _ => None
  end.

Definition field_time (doc : pydict) (key : string) : option datetime :=
  match doc !! key with
  | Some (PyDatetime t) => Some t
  | Some (PyIso t) => Some t
  | _ => None
  end.

Definition read_message (doc : pydict) : result Message.t :=
  match field_str doc "id", field_str doc "sender_id",
        field_str doc "sender_username", field_str doc "content",
        field_str doc "message_type", field_time doc "timestamp",
        field_str doc "conversation_id" with
  | Some id, Some sender_id, Some sender_username, Some content,
    Some message_type, Some timestamp, Some conversation_id =>
      Returned (Message.mk id sender_id sender_username content message_type
                           timestamp conversation_id)
  | _, _, _, _, _, _, _ => Raised (Exc "validation error")
  end.

(** No plain string parses as a date. *)
Definition never_a_date (s : string) : option datetime := None.

Definition alice : UserCreate.t := UserCreate.mk "alice" "alice@example.org" None.

Definition general_room : ConversationCreate.t :=
  ConversationCreate.mk "general" ["u1"; "u2"].

Definition join_c1 : pydict := {["conversation_id" := PyStr "c1"]}.

Definition emit_down : Env :=
  mkEnv (Returned "hello") None None (Some (Exc "not serialisable")).

(** The room after a third session connected. *)
Definition arrivals : World := (sio_connect "s3" lobby).2.

(** The deployment after alice registered. *)
Definition staffed : World :=
  (create_user tick_clock counting_uuid (healthy "") alice lobby).2.

(** A conversation "c1" that already holds 1000 messages. *)
Definition crowded : World :=
  set_db_messages lobby
    (replicate 1000
       (prepare_for_mongo
          (Message.dict (human_message tick_clock counting_uuid hello lobby)))).

(** A submission for the conversation that the first draw of
    [counting_uuid] names. *)
Definition hello_first : MessageCreate.t :=
  MessageCreate.mk "hello" "u1" "alice" "id" "text".

(** A language model that answers with sixty characters. *)
Definition chatty : Env :=
  healthy "0123456789abcdefghij0123456789abcdefghij0123456789abcdefghij".

(** A messages collection whose only document lacks every field but the
    conversation id. *)
Definition damaged : World := set_db_messages lobby [join_c1].

(** ** Running a handler symbolically *)

Ltac exec :=
  cbv [create_message ai_chat_response update_user_status create_conversation
       join_conversation leave_conversation typing_start typing_stop
       new_Message new_Conversation now new_uuid serve human_message ai_message
       mbind handler_bind mret handler_ret try_except fail_or raise
       db_users_update_one db_conversations_insert_one
       db_conversations_update_one db_messages_insert_one
       sio_emit logging_error healthy
       set_db_users set_db_conversations set_db_messages set_sio_rooms
       set_sio_sent set_clock_reads set_uuid_draws set_log];
  cbn [send_message insert_one_error update_one_error emit_error
       db_users db_conversations db_messages sio_rooms sio_sent
       clock_reads uuid_draws log fst snd
       MessageCreate.content MessageCreate.sender_id
       MessageCreate.sender_username MessageCreate.conversation_id
       MessageCreate.message_type].

(** ** Documents *)

Lemma stored_message_fields (m : Message.t) :
  let doc := prepare_for_mongo (Message.dict m) in
  doc !! "id" = Some (PyStr (Message.id m)) ∧
  doc !! "sender_id" = Some (PyStr (Message.sender_id m)) ∧
  doc !! "sender_username" = Some (PyStr (Message.sender_username m)) ∧
  doc !! "content" = Some (PyStr (Message.content m)) ∧
  doc !! "message_type" = Some (PyStr (Message.message_type m)) ∧
  doc !! "timestamp" = Some (PyIso (Message.timestamp m)) ∧
  doc !! "conversation_id" = Some (PyStr (Message.conversation_id m)).
Proof.
  unfold prepare_for_mongo, Message.dict. simpl.
  repeat split; rewrite lookup_fmap; by simplify_map_eq.
Qed.

(** ** Collections *)

Lemma matches_true query doc :
  matches query doc = true ↔ ∀ k v, query !! k = Some v → doc !! k = Some v.
Proof. unfold matches. by rewrite bool_decide_eq_true. Qed.

Lemma matches_union query fields doc :
  untouched query fields → matches query (fields ∪ doc) = matches query doc.
Proof.
  intros Hu. unfold matches. apply bool_decide_ext.
  split; intros H k v Hk; specialize (H k v Hk); simpl in *.
  - by rewrite lookup_union_r in H by eauto.
  - by rewrite lookup_union_r by eauto.
Qed.

Lemma find_one_elem query coll doc :
  find_one query coll = Some doc → doc ∈ coll ∧ matches query doc = true.
Proof.
  induction coll as [|d coll IH]; simpl; [done|].
  destruct (matches query d) eqn:Hd.
  - intros [= <-]. split; [left|done].
  - intros H. destruct (IH H). split; [by right|done].
Qed.

Lemma find_one_snoc query coll doc x :
  find_one query coll = Some x → find_one query (coll ++ [doc]) = Some x.
Proof.
  induction coll as [|d coll IH]; simpl; [done|].
  by destruct (matches query d).
Qed.

Lemma update_first_no_match query fields coll :
  find_one query coll = None → update_first query fields coll = coll.
Proof.
  induction coll as [|d coll IH]; simpl; [done|].
  destruct (matches query d); [done|]. intros H. by rewrite IH.
Qed.

Lemma find_one_update_first_same query fields coll :
  untouched query fields →
  find_one query (update_first query fields coll) =
    (fields ∪.) <$> find_one query coll.
Proof.
  intros Hu. induction coll as [|d coll IH]; simpl; [done|].
  destruct (matches query d) eqn:Hd; simpl.
  - by rewrite matches_union, Hd.
  - by rewrite Hd.
Qed.

Lemma find_one_update_first_other query' query fields coll doc :
  untouched query' fields →
  find_one query' coll = Some doc →
  find_one query' (update_first query fields coll) = Some doc ∨
  find_one query' (update_first query fields coll) = Some (fields ∪ doc).
Proof.
  intros Hu. induction coll as [|d coll IH]; simpl; [done|].
  destruct (matches query d) eqn:Hd; simpl.
  - rewrite matches_union by done.
    destruct (matches query' d); [intros [= <-]; by right | by left].
  - destruct (matches query' d); [by left | done].
Qed.

Lemma elem_of_update_first query fields coll doc' :
  doc' ∈ update_first query fields coll →
  doc' ∈ coll ∨ ∃ doc, doc ∈ coll ∧ doc' = fields ∪ doc.
Proof.
  induction coll as [|d coll IH]; simpl; [by left|].
  destruct (matches query d).
  - intros [->|H]%elem_of_cons.
    + right. exists d. split; [left|done].
    + left. by right.
  - intros [->|H]%elem_of_cons; [left; left|].
    destruct (IH H) as [?|(doc & ? & ?)]; [left; by right|].
    right. exists doc. split; [by right|done].
Qed.

(** *** Slices *)

Lemma slice_to_prefix n s :
  (n ≤ String.length s)%nat →
  String.length (slice_to n s) = n ∧ ∃ rest, s = slice_to n s +:+ rest.
Proof.
  unfold slice_to. revert s. induction n as [|n IH]; intros s Hn.
  - destruct s; simpl; eauto.
  - destruct s as [|c s]; simpl in *; [lia|].
    destruct (IH s ltac:(lia)) as (Hlen & rest & Hrest).
    split; [by rewrite Hlen|]. exists rest.
    change (String c s = String c (String.substring 0 n s +:+ rest)).
    by rewrite <- Hrest.
Qed.

Section ServerFacts.

Variable clock : nat → datetime.
Variable uuid4 : nat → string.

Local Abbreviation create_message := (create_message clock uuid4).
Local Abbreviation ai_chat_response := (ai_chat_response clock uuid4).
Local Abbreviation create_conversation := (create_conversation clock uuid4).
Local Abbreviation human_message := (human_message clock uuid4).
Local Abbreviation ai_message := (ai_message clock uuid4).
Local Abbreviation serve := (serve clock uuid4).
Local Abbreviation serve_all := (serve_all clock uuid4).
Local Abbreviation monotone := (monotone clock).
Local Abbreviation activities_past := (activities_past clock).
Local Abbreviation conv_step := (conv_step clock).

(** The AI route never raises: whatever happens inside, FastAPI gets a
    value to serialise. *)
Lemma ai_chat_response_returns env msg_data w :
  ∃ resp, (ai_chat_response env msg_data w).1 = Returned resp.
Proof.
  destruct env as [[text|e0] [e1|] [e2|] [e3|]]; exec; eauto.
Qed.

Lemma ai_chat_response_llm_raises env msg_data w e :
  send_message env = Raised e →
  ai_chat_response env msg_data w =
    (Returned (RespDict error_payload),
     set_log w (log w ++ ["AI chat error: " +:+ str e])).
Proof.
  destruct env as [[text|e0] e1 e2 e3]; simpl; intros He; [done|].
  by injection He as ->.
Qed.

Lemma ai_chat_response_persists env msg_data w text :
  send_message env = Returned text →
  insert_one_error env = None →
  db_messages (ai_chat_response env msg_data w).2 =
    db_messages w ++ [prepare_for_mongo (Message.dict (ai_message text msg_data w))].
Proof.
  intros Ht Hi. destruct env as [r e1 [e2|] [e3|]]; simpl in Ht, Hi; subst r e1;
    by exec.
Qed.

Lemma ai_chat_response_swallows env msg_data w text :
  send_message env = Returned text →
  insert_one_error env = None →
  is_Some (update_one_error env) ∨ is_Some (emit_error env) →
  (ai_chat_response env msg_data w).1 = Returned (RespDict error_payload).
Proof.
  intros Ht Hi Hfail.
  destruct env as [r e1 [e2|] [e3|]]; simpl in Ht, Hi, Hfail; subst r e1;
    try (exec; done).
  destruct Hfail as [[? ?]|[? ?]]; done.
Qed.

(** C7. When the language-model call raises, the AI route still returns:
    the value is the dict [{"error": "AI response failed"}], not an
    exception that FastAPI would turn into a failure status.  No message
    document is inserted, no conversation is touched and no packet is sent;
    the only trace is a line in the error log. *)
Theorem ai_failure_returns_error_payload env msg_data w e :
  send_message env = Raised e →
  (ai_chat_response env msg_data w).1 = Returned (RespDict error_payload) ∧
  db_messages (ai_chat_response env msg_data w).2 = db_messages w ∧
  db_conversations (ai_chat_response env msg_data w).2 = db_conversations w ∧
  sio_sent (ai_chat_response env msg_data w).2 = sio_sent w ∧
  log (ai_chat_response env msg_data w).2 = log w ++ ["AI chat error: " +:+ str e].
Proof.
  intros He. by rewrite (ai_chat_response_llm_raises _ _ _ _ He).
Qed.

(** C3. An AI-reply request whose language-model call raises inserts no
    message and sends no packet.  One whose call returns [text], with the
    store taking the insert, adds exactly one document to the messages
    collection, and that document has sender id "ai-assistant", sender name
    "AI Assistant", type "ai_response", the text as content and the
    conversation id of the request. *)
Theorem ai_reply_persists_one_ai_message env msg_data w :
  (∀ e, send_message env = Raised e →
        db_messages (ai_chat_response env msg_data w).2 = db_messages w ∧
        sio_sent (ai_chat_response env msg_data w).2 = sio_sent w) ∧
  (∀ text, send_message env = Returned text → insert_one_error env = None →
        ∃ doc,
          db_messages (ai_chat_response env msg_data w).2 = db_messages w ++ [doc] ∧
          doc !! "sender_id" = Some (PyStr "ai-assistant") ∧
          doc !! "sender_username" = Some (PyStr "AI Assistant") ∧
          doc !! "message_type" = Some (PyStr "ai_response") ∧
          doc !! "content" = Some (PyStr text) ∧
          doc !! "conversation_id" =
            Some (PyStr (MessageCreate.conversation_id msg_data))).
Proof.
  split.
  - intros e He. by rewrite (ai_chat_response_llm_raises _ _ _ _ He).
  - intros text Ht Hi.
    exists (prepare_for_mongo (Message.dict (ai_message text msg_data w))).
    destruct (stored_message_fields (ai_message text msg_data w))
      as (_ & ? & ? & ? & ? & _ & ?).
    split; [|done]. by apply ai_chat_response_persists.
Qed.

(** C4. When the insert of the message document raises, [create_message]
    raises the same exception and leaves the messages, the conversations
    and the sent packets as they were.  Whenever a run of [create_message]
    did send a packet, the insert had been taken: the stored document of the
    very message the packets carry is the last one of the collection. *)
Theorem create_message_persist_failure_aborts env msg_data w :
  (∀ e, insert_one_error env = Some e →
        (create_message env msg_data w).1 = Raised e ∧
        db_messages (create_message env msg_data w).2 = db_messages w ∧
        db_conversations (create_message env msg_data w).2 = db_conversations w ∧
        sio_sent (create_message env msg_data w).2 = sio_sent w) ∧
  (∀ p, p ∈ sent_since w (create_message env msg_data w).2 →
        insert_one_error env = None ∧
        ∃ m, p.1.2 = "new_message" ∧ p.2 = Message.dict m ∧
             db_messages (create_message env msg_data w).2 =
               db_messages w ++ [prepare_for_mongo (Message.dict m)]).
Proof.
  split.
  - intros e He. destruct env as [r e1 e2 e3]; simpl in He; subst e1.
    exec. done.
  - intros p. unfold sent_since.
    destruct env as [r [e1|] [e2|] [e3|]]; exec;
      rewrite ?drop_ge, ?drop_app_length by lia;
      try (intros Hp; by apply not_elem_of_nil in Hp).
    intros Hp. apply list_elem_of_fmap in Hp as (sid & -> & _).
    split; [done|]. eexists. repeat split.
Qed.

(** C9. In the AI route, once the message document is in the store, a raise
    of the summary update or of the emit is swallowed by the same handler
    that serves a failed language-model call: the route answers with the
    error payload, and the AI message stays in the messages collection. *)
Theorem ai_error_payload_after_persist env msg_data w text :
  send_message env = Returned text →
  insert_one_error env = None →
  is_Some (update_one_error env) ∨ is_Some (emit_error env) →
  (ai_chat_response env msg_data w).1 = Returned (RespDict error_payload) ∧
  ∃ doc,
    db_messages (ai_chat_response env msg_data w).2 = db_messages w ++ [doc] ∧
    doc !! "sender_id" = Some (PyStr "ai-assistant") ∧
    doc !! "message_type" = Some (PyStr "ai_response") ∧
    doc !! "content" = Some (PyStr text).
Proof.
  intros Ht Hi Hfail.
  split; [by eapply ai_chat_response_swallows|].
  exists (prepare_for_mongo (Message.dict (ai_message text msg_data w))).
  destruct (stored_message_fields (ai_message text msg_data w))
    as (_ & ? & _ & ? & ? & _).
  split; [|done]. by apply ai_chat_response_persists.
Qed.

(** *** The message route, step by step *)

Lemma untouched_id_summary conversation_id last_message t :
  untouched {["id" := PyStr conversation_id]} (summary last_message t).
Proof.
  intros k [v Hk]. apply lookup_singleton_Some in Hk as [<- _].
  unfold summary. by rewrite lookup_insert_ne, lookup_singleton_ne.
Qed.

Lemma summary_last_message last_message t doc :
  (summary last_message t ∪ doc) !! "last_message" = Some (PyStr last_message).
Proof.
  apply lookup_union_Some_l. unfold summary. by rewrite lookup_insert_eq.
Qed.

Lemma summary_last_activity last_message t doc :
  (summary last_message t ∪ doc) !! "last_activity" = Some (PyIso t).
Proof.
  apply lookup_union_Some_l. unfold summary.
  by rewrite lookup_insert_ne, lookup_singleton_eq.
Qed.

(** An accepted submission went through every step. *)
Lemma create_message_accepted env msg_data w m w' :
  create_message env msg_data w = (Returned m, w') →
  m = human_message msg_data w ∧
  db_messages w' = db_messages w ++ [prepare_for_mongo (Message.dict m)] ∧
  db_conversations w' =
    update_first {["id" := PyStr (MessageCreate.conversation_id msg_data)]}
                 (summary (preview (MessageCreate.content msg_data))
                          (clock (S (clock_reads w))))
                 (db_conversations w) ∧
  sio_sent w' =
    sio_sent w ++
    ((λ sid, (sid, "new_message", Message.dict m)) <$>
       recipients (PyStr (MessageCreate.conversation_id msg_data)) None (sio_rooms w)) ∧
  clock_reads w' = S (S (clock_reads w)).
Proof.
  destruct env as [r [e1|] [e2|] [e3|]]; exec; intros [= <- <-]; done.
Qed.

(** With every collaborator answering, a submission is accepted. *)
Lemma create_message_healthy env msg_data w :
  insert_one_error env = None →
  update_one_error env = None →
  emit_error env = None →
  (create_message env msg_data w).1 = Returned (human_message msg_data w).
Proof.
  destruct env as [r e1 e2 e3]; simpl; intros -> -> ->. by exec.
Qed.

(** C5. After an accepted [create_message] for a conversation that exists,
    the conversation's [last_message] is the first 50 characters of the
    content followed by "..." when the content is longer than 50 characters,
    and the content itself otherwise.  The document added to the messages
    collection carries the whole content in both cases. *)
Theorem create_message_summary_preview env msg_data w m w' :
  create_message env msg_data w = (Returned m, w') →
  is_Some (conversation_doc (MessageCreate.conversation_id msg_data) w) →
  (50 < len (MessageCreate.content msg_data) →
     last_message_of (MessageCreate.conversation_id msg_data) w' =
       Some (PyStr (slice_to 50 (MessageCreate.content msg_data) +:+ "...")) ∧
     String.length (slice_to 50 (MessageCreate.content msg_data)) = 50%nat ∧
     ∃ rest, MessageCreate.content msg_data =
               slice_to 50 (MessageCreate.content msg_data) +:+ rest) ∧
  (len (MessageCreate.content msg_data) ≤ 50 →
     last_message_of (MessageCreate.conversation_id msg_data) w' =
       Some (PyStr (MessageCreate.content msg_data))) ∧
  ∃ doc, db_messages w' = db_messages w ++ [doc] ∧
         doc !! "content" = Some (PyStr (MessageCreate.content msg_data)).
Proof.
  intros Hrun [conv Hconv].
  apply create_message_accepted in Hrun as (-> & Hmsgs & Hconvs & _ & _).
  assert (last_message_of (MessageCreate.conversation_id msg_data) w' =
          Some (PyStr (preview (MessageCreate.content msg_data)))) as Hlast.
  { unfold last_message_of, conversation_doc in *. rewrite Hconvs.
    rewrite find_one_update_first_same by apply untouched_id_summary.
    rewrite Hconv. simpl. apply summary_last_message. }
  unfold preview in Hlast. split; [|split].
  - intros Hlong. destruct (Z.ltb_spec 50 (len (MessageCreate.content msg_data)));
      [|lia].
    split; [done|]. apply slice_to_prefix. unfold len in Hlong. lia.
  - intros Hshort. destruct (Z.ltb_spec 50 (len (MessageCreate.content msg_data)));
      [lia|done].
  - eexists. split; [done|].
    by destruct (stored_message_fields (human_message msg_data w))
      as (_ & _ & _ & ? & _).
Qed.

(** C6, as the code has it.  The message route never looks the
    conversation up.  When the store takes both writes, a submission whose
    conversation id matches no conversation document is persisted like any
    other: its document is added to the messages collection, while the
    summary update finds nothing and leaves the conversations collection as
    it was.  With no session connected and the emit returning, the
    submission is accepted: the route returns the message, and nothing is
    sent because nobody is there.  When the emit raises, the route raises
    with the message still persisted. *)
Theorem create_message_unknown_conversation_persists env msg_data w :
  insert_one_error env = None →
  update_one_error env = None →
  conversation_doc (MessageCreate.conversation_id msg_data) w = None →
  db_messages (create_message env msg_data w).2 =
    db_messages w ++ [prepare_for_mongo (Message.dict (human_message msg_data w))] ∧
  db_conversations (create_message env msg_data w).2 = db_conversations w ∧
  (emit_error env = None → sio_rooms w = [] →
     (create_message env msg_data w).1 = Returned (human_message msg_data w) ∧
     sio_sent (create_message env msg_data w).2 = sio_sent w) ∧
  (∀ e, emit_error env = Some e →
     (create_message env msg_data w).1 = Raised e ∧
     sio_sent (create_message env msg_data w).2 = sio_sent w).
Proof.
  intros Hi Hu Hnone.
  assert (update_first {["id" := PyStr (MessageCreate.conversation_id msg_data)]}
            (summary (preview (MessageCreate.content msg_data))
                     (clock (S (clock_reads w))))
            (db_conversations w) = db_conversations w) as Hsame
    by by apply update_first_no_match.
  destruct env as [r e1 e2 [e3|]]; simpl in Hi, Hu; subst e1 e2; exec.
  - split; [done|]. split; [exact Hsame|]. split; [done|].
    by intros e [= <-].
  - split; [done|]. split; [exact Hsame|]. split; [|done].
    intros _ ->. split; [done|]. unfold recipients, participants. simpl.
    by rewrite app_nil_r.
Qed.

(** C2, as the code has it.  The AI route repeats the steps of the message
    route on the message it builds: for a reply [text], compare it with
    [create_message] given the same text, sender "ai-assistant" /
    "AI Assistant" and type "ai_response".  Under the same collaborator
    answers both leave the same messages collection, the same sent packets,
    the same rooms, users and counters, and the AI route returns the message
    whenever the message route does.  The summary differs: where the
    message route stores the preview, the AI route stores "AI: " followed by
    the preview (with the same activity instant). *)
Theorem ai_route_pipeline_with_prefix env msg_data w text :
  send_message env = Returned text →
  let ai_data := MessageCreate.mk text "ai-assistant" "AI Assistant"
                   (MessageCreate.conversation_id msg_data) "ai_response" in
  let h := create_message env ai_data w in
  let a := ai_chat_response env msg_data w in
  let query : pydict := {["id" := PyStr (MessageCreate.conversation_id msg_data)]} in
  let t := clock (S (clock_reads w)) in
  db_messages a.2 = db_messages h.2 ∧
  sio_sent a.2 = sio_sent h.2 ∧
  sio_rooms a.2 = sio_rooms h.2 ∧
  db_users a.2 = db_users h.2 ∧
  clock_reads a.2 = clock_reads h.2 ∧
  uuid_draws a.2 = uuid_draws h.2 ∧
  (∀ m, h.1 = Returned m → a.1 = Returned (RespMessage m)) ∧
  match insert_one_error env, update_one_error env with
  | None, None =>
      db_conversations h.2 =
        update_first query (summary (preview text) t) (db_conversations w) ∧
      db_conversations a.2 =
        update_first query (summary ("AI: " +:+ preview text) t) (db_conversations w)
  | _, _ =>
      db_conversations h.2 = db_conversations w ∧
      db_conversations a.2 = db_conversations w
  end.
Proof.
  intros Ht. destruct env as [r [e1|] [e2|] [e3|]]; simpl in Ht; subst r;
    exec; repeat split; try done; by intros m [= <-].
Qed.

(** *** The activity instant along a run *)

Lemma stored_conversation_activity (c : Conversation.t) :
  prepare_for_mongo (Conversation.dict c) !! "last_activity" =
    Some (PyIso (Conversation.last_activity c)).
Proof.
  unfold prepare_for_mongo, Conversation.dict.
  rewrite lookup_fmap. by simplify_map_eq.
Qed.

Lemma serve_conv_step env req w : conv_step w (serve env req w).2.
Proof.
  destruct req as [conv_data|msg_data|msg_data];
    destruct env as [[text|e0] [e1|] [e2|] [e3|]]; exec;
    first
      [ by (apply conv_step_same; cbn [db_conversations clock_reads]; [done|lia])
      | by (eapply (conv_step_update _ _ _ _ _ (S (clock_reads w)));
            cbn [db_conversations clock_reads]; [reflexivity|lia|lia])
      | eapply (conv_step_insert _ _ _ _ (S (clock_reads w)));
        cbn [db_conversations clock_reads];
        [reflexivity|apply stored_conversation_activity|lia|lia] ].
Qed.

Lemma last_activity_of_Some conversation_id w t :
  last_activity_of conversation_id w = Some t ↔
  ∃ doc, conversation_doc conversation_id w = Some doc ∧
         doc !! "last_activity" = Some (PyIso t).
Proof.
  unfold last_activity_of.
  destruct (conversation_doc conversation_id w) as [doc|]; simpl.
  - split.
    + intros H. exists doc. split; [done|].
      destruct (doc !! "last_activity") as [[]|]; try done. by injection H as ->.
    + intros (doc' & [= <-] & ->). done.
  - split; [done|]. by intros (doc' & ? & _).
Qed.

Section Monotone.

Hypothesis clock_monotone : monotone.

Lemma conv_step_sound w w' :
  conv_step w w' →
  activities_past w →
  activities_past w' ∧
  ∀ c t, last_activity_of c w = Some t →
         ∃ t', last_activity_of c w' = Some t' ∧ t ≤ t'.
Proof.
  intros [Hsame Hle|cid p k Hupd Hk1 Hk2|new k Hins Hnew Hk1 Hk2] Hpast.
  - split.
    + intros doc t Hdoc Ht. rewrite Hsame in Hdoc.
      etrans; [by eapply Hpast|]. by apply clock_monotone.
    + intros c t Ht. exists t. split; [|lia].
      unfold last_activity_of, conversation_doc in *. by rewrite Hsame.
  - split.
    + intros doc' t Hdoc' Ht. rewrite Hupd in Hdoc'.
      apply elem_of_update_first in Hdoc' as [Hold|(doc & Hdoc & ->)].
      * etrans; [by eapply Hpast|]. apply clock_monotone. lia.
      * rewrite summary_last_activity in Ht. injection Ht as <-.
        apply clock_monotone. lia.
    + intros c t (doc & Hdoc & Ht)%last_activity_of_Some.
      unfold conversation_doc in Hdoc.
      destruct (find_one_update_first_other
                  {["id" := PyStr c]} {["id" := PyStr cid]}
                  (summary p (clock k)) (db_conversations w) doc
                  (untouched_id_summary _ _ _) Hdoc) as [Hsame|Hnew].
      * exists t. split; [|lia]. apply last_activity_of_Some. exists doc.
        unfold conversation_doc. by rewrite Hupd.
      * exists (clock k). split.
        -- apply last_activity_of_Some. eexists. unfold conversation_doc.
           rewrite Hupd. split; [done|]. apply summary_last_activity.
        -- etrans; [eapply Hpast; [|done]; by eapply find_one_elem|].
           by apply clock_monotone.
  - split.
    + intros doc t Hdoc Ht. rewrite Hins in Hdoc.
      apply elem_of_app in Hdoc as [Hold|Hlast].
      * etrans; [by eapply Hpast|]. apply clock_monotone. lia.
      * apply list_elem_of_singleton in Hlast as ->. rewrite Hnew in Ht. injection Ht as <-. apply clock_monotone. lia.
    + intros c t (doc & Hdoc & Ht)%last_activity_of_Some.
      exists t. split; [|lia]. apply last_activity_of_Some. exists doc.
      unfold conversation_doc in *. rewrite Hins. split; [|done].
      by apply find_one_snoc.
Qed.

Lemma serve_all_sound reqs w :
  activities_past w →
  activities_past (serve_all reqs w) ∧
  ∀ c t, last_activity_of c w = Some t →
         ∃ t', last_activity_of c (serve_all reqs w) = Some t' ∧ t ≤ t'.
Proof.
  revert w. induction reqs as [|[env req] reqs IH]; intros w Hpast.
  - split; [done|]. intros c t Ht. exists t. split; [done|lia].
  - destruct (conv_step_sound w (serve env req w).2 (serve_conv_step env req w) Hpast)
      as [Hpast1 Hstep].
    destruct (IH _ Hpast1) as [Hpast2 Hrest].
    split; [done|]. intros c t Ht.
    destruct (Hstep c t Ht) as (t1 & Ht1 & Hle1).
    destruct (Hrest c t1 Ht1) as (t2 & Ht2 & Hle2).
    exists t2. split; [done|lia].
Qed.

End Monotone.

Lemma serve_all_app reqs more w :
  serve_all (reqs ++ more) w = serve_all more (serve_all reqs w).
Proof. apply foldl_app. Qed.

(** An accepted submission through either route. *)
Lemma serve_accepted env req w m w' :
  serve env req w = (Returned (RespMessage m), w') →
  Message.timestamp m = clock (clock_reads w) ∧
  db_messages w' = db_messages w ++ [prepare_for_mongo (Message.dict m)] ∧
  ∃ last_message,
    db_conversations w' =
      update_first {["id" := PyStr (Message.conversation_id m)]}
                   (summary last_message (clock (S (clock_reads w))))
                   (db_conversations w).
Proof.
  destruct req as [conv_data|msg_data|msg_data];
    destruct env as [[text|e0] [e1|] [e2|] [e3|]]; exec;
    intros [= <- <-]; cbn [db_messages db_conversations Message.timestamp
                            Message.conversation_id];
    (split; [done|split; [done|]]); eexists; reflexivity.
Qed.

(** C1, as the code has it.  Take a clock that never runs backwards.
    An accepted submission, through the message route or the AI route, to a
    conversation that exists leaves the message as the last document of the
    messages collection and sets the conversation's [last_activity] to the
    clock reading taken for the summary update.  That reading is the one
    after the reading that gave the message its timestamp, so
    [last_activity] is not earlier than the timestamp, and need not be equal
    to it.  Along any sequence of requests served one after the other
    (conversation creations and submissions through either route, accepted
    or not), started where no stored activity lies in the future, the
    [last_activity] of every conversation never decreases; requests whose
    steps interleave are outside this statement. *)
Theorem last_activity_is_update_reading :
  monotone →
  (∀ env req w m w',
     serve env req w = (Returned (RespMessage m), w') →
     is_Some (conversation_doc (Message.conversation_id m) w) →
     last (db_messages w') = Some (prepare_for_mongo (Message.dict m)) ∧
     Message.timestamp m = clock (clock_reads w) ∧
     last_activity_of (Message.conversation_id m) w' =
       Some (clock (S (clock_reads w))) ∧
     Message.timestamp m ≤ clock (S (clock_reads w))) ∧
  (∀ w reqs more c t,
     activities_past w →
     last_activity_of c (serve_all reqs w) = Some t →
     ∃ t', last_activity_of c (serve_all (reqs ++ more) w) = Some t' ∧ t ≤ t').
Proof.
  intros Hmono. split.
  - intros env req w m w' Hrun [doc Hdoc].
    apply serve_accepted in Hrun as (Hts & Hmsgs & p & Hconvs).
    repeat split.
    + rewrite Hmsgs. apply last_snoc.
    + done.
    + apply last_activity_of_Some. unfold conversation_doc in *.
      rewrite Hconvs, find_one_update_first_same by apply untouched_id_summary.
      rewrite Hdoc. eexists. split; [done|]. apply summary_last_activity.
    + rewrite Hts. apply Hmono. lia.
  - intros w reqs more c t Hpast Ht. rewrite serve_all_app.
    destruct (serve_all_sound Hmono reqs w Hpast) as [Hpast' _].
    destruct (serve_all_sound Hmono more _ Hpast') as [_ Hrest].
    by apply Hrest.
Qed.

End ServerFacts.

(** ** Presence events *)

Lemma elem_of_recipients s room skip_sid rooms :
  s ∈ recipients room skip_sid rooms ↔
  s ∈ participants room rooms ∧ Some s ≠ skip_sid.
Proof. unfold recipients. rewrite list_elem_of_filter. tauto. Qed.

Lemma elem_of_participants s room rooms :
  s ∈ participants room rooms ↔ (room, s) ∈ rooms.
Proof.
  unfold participants. rewrite list_elem_of_fmap. split.
  - intros ([r s'] & -> & [Hr Hin]%list_elem_of_filter). simpl in *. by subst r.
  - intros Hin. exists (room, s). split; [done|].
    apply list_elem_of_filter. by split.
Qed.

(** Every session that connected and did not disconnect is in the room
    [None], the one an emit without a room goes to. *)
Lemma sio_connect_joins_everyone sid w :
  sid ∈ participants PyNone (sio_rooms (sio_connect sid w).2) ∧
  sid ∈ participants (PyStr sid) (sio_rooms (sio_connect sid w).2).
Proof.
  rewrite !elem_of_participants. unfold sio_connect. simpl.
  split; apply elem_of_app; right; [left|right; left].
Qed.

Lemma recipients_no_skip room rooms :
  recipients room None rooms = participants room rooms.
Proof.
  unfold recipients. induction (participants room rooms) as [|s l IH]; [done|].
  by rewrite filter_cons_True, IH.
Qed.

Lemma typing_start_emits env sid data room w :
  data !! "conversation_id" = Some (PyStr room) →
  room ≠ "" →
  emit_error env = None →
  typing_start env sid data w =
    (Returned tt,
     set_sio_sent w
       (sio_sent w ++
        ((λ s, (s, "user_typing",
                <["user_id" := get data "user_id"]>
                (<["username" := get data "username"]> {["typing" := PyBool true]})))
           <$> recipients (PyStr room) (Some sid) (sio_rooms w)))).
Proof.
  intros Hcid Hroom Hemit. unfold typing_start.
  assert (get data "conversation_id" = PyStr room) as ->
    by (unfold get; by rewrite Hcid).
  simpl. destruct (String.eqb_spec room ""); [done|]. simpl.
  destruct env as [r e1 e2 e3]; simpl in Hemit; subst e3. by exec.
Qed.

(** C8. A [typing_start] event from session [sid] that carries the
    conversation id [room] (a non-empty string), with the emit going
    through, sends [user_typing] packets and nothing else: one to each
    session that is in the room and is not [sid], none to [sid].  The
    payload carries the user id and the username of the event and
    [typing = True].  No collection changes. *)
Theorem typing_start_reaches_the_others env sid data room w :
  data !! "conversation_id" = Some (PyStr room) →
  room ≠ "" →
  emit_error env = None →
  let payload : pydict :=
    <["user_id" := get data "user_id"]>
    (<["username" := get data "username"]> {["typing" := PyBool true]}) in
  (typing_start env sid data w).1 = Returned tt ∧
  sio_sent (typing_start env sid data w).2 =
    sio_sent w ++ sent_since w (typing_start env sid data w).2 ∧
  (∀ p, p ∈ sent_since w (typing_start env sid data w).2 ↔
        ∃ s, p = (s, "user_typing", payload) ∧
             s ∈ participants (PyStr room) (sio_rooms w) ∧ s ≠ sid) ∧
  (∀ event d, (sid, event, d) ∉ sent_since w (typing_start env sid data w).2) ∧
  payload !! "typing" = Some (PyBool true) ∧
  payload !! "user_id" = Some (get data "user_id") ∧
  payload !! "username" = Some (get data "username") ∧
  db_users (typing_start env sid data w).2 = db_users w ∧
  db_conversations (typing_start env sid data w).2 = db_conversations w ∧
  db_messages (typing_start env sid data w).2 = db_messages w.
Proof.
  intros Hcid Hroom Hemit payload.
  assert (∀ p, p ∈ (λ s, (s, "user_typing", payload)) <$>
                   recipients (PyStr room) (Some sid) (sio_rooms w) ↔
               ∃ s, p = (s, "user_typing", payload) ∧
                    s ∈ participants (PyStr room) (sio_rooms w) ∧ s ≠ sid) as Hmem.
  { intros p. rewrite list_elem_of_fmap.
    split; intros (s & -> & Hs); exists s; (split; [done|]).
    - apply elem_of_recipients in Hs as [? Hne]. split; [done|]. congruence.
    - destruct Hs as [? Hne]. apply elem_of_recipients. split; [done|]. congruence. }
  rewrite (typing_start_emits env sid data room w Hcid Hroom Hemit).
  fold payload. unfold sent_since, set_sio_sent. cbn [fst snd sio_sent db_users
    db_conversations db_messages]. rewrite drop_app_length.
  repeat split; try done.
  - by apply Hmem.
  - by apply Hmem.
  - intros event d (s & [= <- _ _] & _ & Hne)%Hmem. done.
Qed.

(** C10. With the store and the emit answering, [update_user_status]
    returns [{"success": True}] and sends a [user_status_changed] packet,
    carrying the user id and the status, to every connected session,
    whatever the users collection holds.  When no user document has the
    given id the update changes nothing, and the answer and the packets are
    the same. *)
Theorem update_user_status_unknown_user env user_id status w :
  update_one_error env = None →
  emit_error env = None →
  let payload : pydict :=
    <["user_id" := PyStr user_id]> {["status" := PyStr status]} in
  (update_user_status env user_id status w).1 =
    Returned {["success" := PyBool true]} ∧
  sent_since w (update_user_status env user_id status w).2 =
    (λ s, (s, "user_status_changed", payload)) <$>
      participants PyNone (sio_rooms w) ∧
  (∀ s, s ∈ participants PyNone (sio_rooms w) →
        (s, "user_status_changed", payload) ∈
          sent_since w (update_user_status env user_id status w).2) ∧
  (find_one {["id" := PyStr user_id]} (db_users w) = None →
     db_users (update_user_status env user_id status w).2 = db_users w).
Proof.
  intros Hupd Hemit payload.
  destruct env as [r e1 e2 e3]; simpl in Hupd, Hemit; subst e2 e3. exec.
  fold payload.
  unfold sent_since. cbn [sio_sent].
  rewrite drop_app_length, recipients_no_skip.
  repeat split.
  - intros s Hs. apply list_elem_of_fmap. by exists s.
  - intros Hnone. by apply update_first_no_match.
Qed.

(** ** The handlers on the small deployment *)

(** C1, the claim as the specification words it, fails.  One accepted
    submission of "hello" to the existing conversation "c1", with no
    session connected and a clock that ticks at each reading: the message
    is persisted with timestamp 0, and the conversation's [last_activity]
    afterwards is 1. *)
Lemma last_activity_is_not_the_timestamp :
  let m := human_message tick_clock counting_uuid hello quiet in
  let out := create_message tick_clock counting_uuid (healthy "") hello quiet in
  sio_rooms quiet = [] ∧
  is_Some (conversation_doc "c1" quiet) ∧
  out.1 = Returned m ∧
  last (db_messages out.2) = Some (prepare_for_mongo (Message.dict m)) ∧
  Message.timestamp m = 0 ∧
  last_activity_of "c1" out.2 = Some 1 ∧
  last_activity_of "c1" out.2 ≠ Some (Message.timestamp m).
Proof.
  split; [reflexivity|]. split; [by eexists|].
  repeat split; vm_compute; congruence.
Qed.

Lemma last_activity_is_update_reading_witness :
  last_activity_of "c1"
    (serve_all tick_clock counting_uuid [(healthy "", CreateMessage hello)] quiet) = Some 1 ∧
  ∃ t', last_activity_of "c1"
          (serve_all tick_clock counting_uuid
             ([(healthy "", CreateMessage hello)] ++
              [(update_down, AiChat hello); (healthy "hi", AiChat hello)])
             quiet) = Some t' ∧
        1 ≤ t'.
Proof.
  split; [vm_compute; reflexivity|].
  assert (monotone tick_clock) as Hmono
    by (intros i j Hij; unfold tick_clock; lia).
  apply (proj2 (last_activity_is_update_reading tick_clock counting_uuid Hmono)).
  - intros doc t Hdoc Ht. apply list_elem_of_singleton in Hdoc as ->.
    vm_compute in Ht. injection Ht as <-. done.
  - vm_compute; reflexivity.
Defined.

(** C2, the claim as the specification words it, fails.  The same content
    "hello" for the same conversation, once through the message route (with
    the sender and type the AI route uses) and once as the reply of the
    language model through the AI route: the stored message documents are
    equal, the summaries are not. *)
Lemma ai_summary_differs_from_human_summary :
  let h := create_message tick_clock counting_uuid (healthy "hello") hello_as_ai lobby in
  let a := ai_chat_response tick_clock counting_uuid (healthy "hello") hello lobby in
  db_messages a.2 = db_messages h.2 ∧
  last_message_of "c1" h.2 = Some (PyStr "hello") ∧
  last_message_of "c1" a.2 = Some (PyStr "AI: hello") ∧
  last_message_of "c1" a.2 ≠ last_message_of "c1" h.2.
Proof.
  cbv zeta. split; [vm_compute; reflexivity|].
  split; [vm_compute; reflexivity|].
  split; [vm_compute; reflexivity|].
  vm_compute. discriminate.
Qed.

Lemma ai_route_pipeline_with_prefix_witness :
  let h := create_message tick_clock counting_uuid update_down hello_as_ai lobby in
  let a := ai_chat_response tick_clock counting_uuid update_down hello lobby in
  db_messages a.2 = db_messages h.2 ∧ sio_sent a.2 = sio_sent h.2.
Proof.
  destruct (ai_route_pipeline_with_prefix tick_clock counting_uuid update_down
              hello lobby "hello" eq_refl) as (Hm & Hs & _).
  split; [exact Hm|exact Hs].
Defined.

Lemma ai_reply_persists_one_ai_message_witness :
  ∃ doc,
    db_messages (ai_chat_response tick_clock counting_uuid update_down hello lobby).2 =
      db_messages lobby ++ [doc] ∧
    doc !! "sender_id" = Some (PyStr "ai-assistant") ∧
    doc !! "sender_username" = Some (PyStr "AI Assistant") ∧
    doc !! "message_type" = Some (PyStr "ai_response") ∧
    doc !! "content" = Some (PyStr "hello") ∧
    doc !! "conversation_id" = Some (PyStr "c1").
Proof.
  apply (proj2 (ai_reply_persists_one_ai_message tick_clock counting_uuid
                  update_down hello lobby) "hello"); reflexivity.
Defined.

Lemma create_message_persist_failure_aborts_witness :
  (create_message tick_clock counting_uuid insert_down hello lobby).1 =
    Raised (Exc "not primary") ∧
  db_messages (create_message tick_clock counting_uuid insert_down hello lobby).2 = [] ∧
  db_conversations (create_message tick_clock counting_uuid insert_down hello lobby).2 =
    [general] ∧
  sio_sent (create_message tick_clock counting_uuid insert_down hello lobby).2 = [].
Proof.
  apply (proj1 (create_message_persist_failure_aborts tick_clock counting_uuid
                  insert_down hello lobby) (Exc "not primary")).
  reflexivity.
Defined.

Lemma create_message_summary_preview_witness :
  last_message_of "c1"
    (create_message tick_clock counting_uuid (healthy "") long_hello lobby).2 =
    Some (PyStr "0123456789abcdefghij0123456789abcdefghij0123456789...") ∧
  last_message_of "c1"
    (create_message tick_clock counting_uuid (healthy "") hello lobby).2 =
    Some (PyStr "hello").
Proof.
  split.
  - refine (proj1 (proj1 (create_message_summary_preview tick_clock counting_uuid
             (healthy "") long_hello lobby
             (human_message tick_clock counting_uuid long_hello lobby)
             (create_message tick_clock counting_uuid (healthy "") long_hello lobby).2
             _ _) _)).
    + vm_compute; reflexivity.
    + eexists; vm_compute; reflexivity.
    + vm_compute; reflexivity.
  - refine (proj1 (proj2 (create_message_summary_preview tick_clock counting_uuid
             (healthy "") hello lobby
             (human_message tick_clock counting_uuid hello lobby)
             (create_message tick_clock counting_uuid (healthy "") hello lobby).2
             _ _)) _).
    + vm_compute; reflexivity.
    + eexists; vm_compute; reflexivity.
    + vm_compute; discriminate.
Defined.

(** C6, the claim as the specification words it, fails.  No conversation
    has the id "nowhere", and yet, with no session connected, the
    submission is accepted: the route returns the message, and its document
    is in the messages collection. *)
Lemma stray_message_is_persisted :
  let m := human_message tick_clock counting_uuid stray quiet in
  let out := create_message tick_clock counting_uuid (healthy "") stray quiet in
  sio_rooms quiet = [] ∧
  conversation_doc "nowhere" quiet = None ∧
  out.1 = Returned m ∧
  Message.conversation_id m = "nowhere" ∧
  db_messages out.2 = [prepare_for_mongo (Message.dict m)] ∧
  conversation_doc "nowhere" out.2 = None.
Proof. cbv zeta. repeat split; vm_compute; reflexivity. Qed.

Lemma create_message_unknown_conversation_persists_witness :
  (create_message tick_clock counting_uuid (healthy "") stray quiet).1 =
    Returned (human_message tick_clock counting_uuid stray quiet) ∧
  db_messages (create_message tick_clock counting_uuid (healthy "") stray quiet).2 =
    db_messages quiet ++
    [prepare_for_mongo (Message.dict (human_message tick_clock counting_uuid stray quiet))] ∧
  db_conversations (create_message tick_clock counting_uuid (healthy "") stray quiet).2 =
    db_conversations quiet.
Proof.
  destruct (create_message_unknown_conversation_persists tick_clock counting_uuid
              (healthy "") stray quiet eq_refl eq_refl)
    as (Hm & Hc & Hok & _).
  - vm_compute; reflexivity.
  - destruct (Hok eq_refl eq_refl) as [Hr _].
    split; [exact Hr|]. split; [exact Hm|exact Hc].
Defined.

Lemma ai_failure_returns_error_payload_witness :
  (ai_chat_response tick_clock counting_uuid llm_down hello lobby).1 =
    Returned (RespDict error_payload) ∧
  db_messages (ai_chat_response tick_clock counting_uuid llm_down hello lobby).2 = [].
Proof.
  destruct (ai_failure_returns_error_payload tick_clock counting_uuid llm_down
              hello lobby (Exc "timeout") eq_refl) as (Hr & Hm & _).
  split; [exact Hr|exact Hm].
Defined.

Lemma typing_start_reaches_the_others_witness :
  let payload : pydict :=
    <["user_id" := PyStr "u1"]>
    (<["username" := PyStr "alice"]> {["typing" := PyBool true]}) in
  ("s2", "user_typing", payload)
    ∈ sent_since lobby (typing_start (healthy "") "s1" alice_typing lobby).2 ∧
  ("s1", "user_typing", payload)
    ∉ sent_since lobby (typing_start (healthy "") "s1" alice_typing lobby).2.
Proof.
  destruct (typing_start_reaches_the_others (healthy "") "s1" alice_typing "c1" lobby)
    as (_ & _ & Hmem & Hself & _).
  - vm_compute; reflexivity.
  - discriminate.
  - reflexivity.
  - split.
    + apply Hmem. exists "s2". split; [reflexivity|]. split; [|discriminate].
      vm_compute. right. left.
    + apply Hself.
Defined.

Lemma ai_error_payload_after_persist_witness :
  (ai_chat_response tick_clock counting_uuid update_down hello lobby).1 =
    Returned (RespDict error_payload) ∧
  ∃ doc,
    db_messages (ai_chat_response tick_clock counting_uuid update_down hello lobby).2 =
      db_messages lobby ++ [doc] ∧
    doc !! "sender_id" = Some (PyStr "ai-assistant") ∧
    doc !! "message_type" = Some (PyStr "ai_response") ∧
    doc !! "content" = Some (PyStr "hello").
Proof.
  apply (ai_error_payload_after_persist tick_clock counting_uuid update_down
           hello lobby "hello").
  - reflexivity.
  - reflexivity.
  - left. eexists. reflexivity.
Defined.

Lemma update_user_status_unknown_user_witness :
  find_one {["id" := PyStr "ghost"]} (db_users lobby) = None ∧
  (update_user_status (healthy "") "ghost" "online" lobby).1 =
    Returned {["success" := PyBool true]} ∧
  db_users (update_user_status (healthy "") "ghost" "online" lobby).2 = db_users lobby.
Proof.
  destruct (update_user_status_unknown_user (healthy "") "ghost" "online" lobby
              eq_refl eq_refl) as (Hr & _ & _ & Hu).
  split; [reflexivity|]. split; [exact Hr|]. apply Hu. reflexivity.
Defined.

(** ** Unfolding the listing routes *)

Ltac open_parse_field := unfold parse_field.

Ltac open_listing := unfold get_users, get_conversations, get_messages, to_list.

Ltac open_listing_in_all :=
  unfold get_users, get_conversations, get_messages, to_list in *.

Ltac open_ai_message := cbn [ai_message Message.content].

Ltac exec_create_user :=
  cbv [create_user new_User new_uuid now db_users_insert_one fail_or
       mbind handler_bind mret handler_ret insert_one_error
       set_db_users set_clock_reads set_uuid_draws];
  cbn [db_users db_conversations db_messages sio_rooms sio_sent clock_reads
       uuid_draws log].

(** ** Documents on their way to the store and back *)

Lemma endswith_spec s suffix :
  endswith s suffix = true ↔ ∃ front, s = front +:+ suffix.
Proof.
  induction s as [|c s IH]; cbn [endswith].
  - rewrite orb_false_r, String.eqb_eq. split.
    + intros <-. by exists "".
    + intros ([|c front] & Heq); simpl in Heq; [done|discriminate].
  - rewrite orb_true_iff, String.eqb_eq, IH. split.
    + intros [<-|(front & ->)]; [by exists ""|by exists (String c front)].
    + intros ([|c' front] & Heq); simpl in Heq; [by left|].
      injection Heq as <- ->. right. by exists front.
Qed.

(** X1. [prepare_for_mongo] keeps the keys of the dict, replaces every
    datetime value by its ISO string and leaves every other value as it is.
    Its result holds no datetime object, so preparing a second time changes
    nothing. *)
Theorem prepare_for_mongo_strips_datetimes (data : pydict) :
  dom (prepare_for_mongo data) = dom data ∧
  (∀ k t, data !! k = Some (PyDatetime t) →
          prepare_for_mongo data !! k = Some (PyIso t)) ∧
  (∀ k v, data !! k = Some v → (∀ t, v ≠ PyDatetime t) →
          prepare_for_mongo data !! k = Some v) ∧
  (∀ k t, prepare_for_mongo data !! k ≠ Some (PyDatetime t)) ∧
  prepare_for_mongo (prepare_for_mongo data) = prepare_for_mongo data.
Proof.
  unfold prepare_for_mongo. repeat split.
  - apply dom_fmap_L.
  - intros k t Hk. by rewrite lookup_fmap, Hk.
  - intros k v Hk Hv. rewrite lookup_fmap, Hk. simpl.
    destruct v; try done. by destruct (Hv t).
  - intros k t. rewrite lookup_fmap. destruct (data !! k) as [[]|]; done.
  - rewrite <- map_fmap_compose. apply map_fmap_ext.
    intros k v _. by destruct v.
Qed.

Section ParseFacts.

Variable fromisoformat : string → option datetime.

Local Abbreviation parse_field := (parse_field fromisoformat).
Local Abbreviation parse_from_mongo := (parse_from_mongo fromisoformat).

Lemma parse_from_mongo_lookup (item : pydict) k :
  parse_from_mongo item !! k = parse_field k <$> item !! k.
Proof.
  unfold parse_from_mongo. rewrite map_lookup_imap.
  by destruct (item !! k).
Qed.

Lemma parse_prepare_id (data : pydict) :
  (∀ k v, data !! k = Some v → parse_field k (prepare_value v) = v) →
  parse_from_mongo (prepare_for_mongo data) = data.
Proof.
  intros H. apply map_eq. intros k.
  rewrite parse_from_mongo_lookup. unfold prepare_for_mongo. rewrite lookup_fmap.
  destruct (data !! k) as [v|] eqn:Hk; [|done]. simpl. by rewrite (H k v Hk).
Qed.

(** X2. [parse_from_mongo] never raises and keeps the keys.  It changes a
    value only under a key that ends in "_at", and only a string that parses
    as a date: any value under another key, any value that is not a string,
    and any string that [fromisoformat] rejects come back as they were.
    Composed with [prepare_for_mongo], a datetime under a key ending in
    "_at" comes back as the same datetime, and a datetime under any other
    key comes back as its ISO string. *)
Theorem parse_from_mongo_only_at_keys (item : pydict) :
  dom (parse_from_mongo item) = dom item ∧
  (∀ k v, item !! k = Some v → endswith k "_at" = false →
          parse_from_mongo item !! k = Some v) ∧
  (∀ k v, item !! k = Some v → (∀ s, v ≠ PyStr s) → (∀ t, v ≠ PyIso t) →
          parse_from_mongo item !! k = Some v) ∧
  (∀ k s, item !! k = Some (PyStr s) → fromisoformat s = None →
          parse_from_mongo item !! k = Some (PyStr s)) ∧
  (∀ k t, item !! k = Some (PyDatetime t) → endswith k "_at" = true →
          parse_from_mongo (prepare_for_mongo item) !! k = Some (PyDatetime t)) ∧
  (∀ k t, item !! k = Some (PyDatetime t) → endswith k "_at" = false →
          parse_from_mongo (prepare_for_mongo item) !! k = Some (PyIso t)).
Proof.
  repeat split.
  - apply set_eq. intros k. rewrite !elem_of_dom, parse_from_mongo_lookup.
    by rewrite fmap_is_Some.
  - intros k v Hk Hend. rewrite parse_from_mongo_lookup, Hk. simpl.
    open_parse_field. by rewrite Hend.
  - intros k v Hk Hs Ht. rewrite parse_from_mongo_lookup, Hk. simpl.
    open_parse_field. destruct (endswith k "_at"); [|done].
    destruct v; try done; [by destruct (Hs s)|by destruct (Ht t)].
  - intros k s Hk Hs. rewrite parse_from_mongo_lookup, Hk. simpl.
    open_parse_field. destruct (endswith k "_at"); [|done].
    by rewrite Hs.
  - intros k t Hk Hend. rewrite parse_from_mongo_lookup.
    unfold prepare_for_mongo. rewrite lookup_fmap, Hk. simpl.
    open_parse_field. by rewrite Hend.
  - intros k t Hk Hend. rewrite parse_from_mongo_lookup.
    unfold prepare_for_mongo. rewrite lookup_fmap, Hk. simpl.
    open_parse_field. by rewrite Hend.
Qed.

(** X3. What the round trip through the store does to the three models.
    A user document comes back equal to [user.dict()].  A conversation
    document comes back with [created_at] a datetime again but
    [last_activity] still the ISO string, and a message document comes back
    with [timestamp] still the ISO string: neither key ends in "_at", so
    these two reach the model constructor as strings. *)
Theorem store_round_trip_by_model (u : User.t) (c : Conversation.t) (m : Message.t) :
  parse_from_mongo (prepare_for_mongo (User.dict u)) = User.dict u ∧
  parse_from_mongo (prepare_for_mongo (Conversation.dict c)) =
    <["last_activity" := PyIso (Conversation.last_activity c)]> (Conversation.dict c) ∧
  parse_from_mongo (prepare_for_mongo (Message.dict m)) =
    <["timestamp" := PyIso (Message.timestamp m)]> (Message.dict m).
Proof.
  split; [|split].
  - apply parse_prepare_id. intros k v. unfold User.dict.
    rewrite !lookup_insert_Some, lookup_empty.
    intros [[<- <-]|[_ [[<- <-]|[_ [[<- <-]|[_ [[<- <-]|[_ [[<- <-]|[_ [[<- <-]|[_ ?]]]]]]]]]]]];
      try done.
    by destruct (User.avatar_url u).
  - apply map_eq. intros k. rewrite parse_from_mongo_lookup.
    unfold prepare_for_mongo. rewrite lookup_fmap.
    destruct (decide (k = "last_activity")) as [->|Hk].
    + rewrite lookup_insert_eq. unfold Conversation.dict. by simplify_map_eq.
    + rewrite lookup_insert_ne by done.
      destruct (Conversation.dict c !! k) as [v|] eqn:Hv; [|done]. simpl. f_equal.
      revert Hv. unfold Conversation.dict.
      rewrite !lookup_insert_Some, lookup_empty.
      intros [[<- <-]|[_ [[<- <-]|[_ [[<- <-]|[_ [[<- <-]|[_ [[<- <-]|[_ [[<- <-]|[_ ?]]]]]]]]]]]];
        try done.
      by destruct (Conversation.last_message c).
  - apply map_eq. intros k. rewrite parse_from_mongo_lookup.
    unfold prepare_for_mongo. rewrite lookup_fmap.
    destruct (decide (k = "timestamp")) as [->|Hk].
    + rewrite lookup_insert_eq. unfold Message.dict. by simplify_map_eq.
    + rewrite lookup_insert_ne by done.
      destruct (Message.dict m !! k) as [v|] eqn:Hv; [|done]. simpl. f_equal.
      revert Hv. unfold Message.dict.
      rewrite !lookup_insert_Some, lookup_empty.
      intros [[<- <-]|[_ [[<- <-]|[_ [[<- <-]|[_ [[<- <-]|[_ [[<- <-]|[_ [[<- <-]|[_ [[<- <-]|[_ ?]]]]]]]]]]]]]];
        done.
Qed.

End ParseFacts.

(** ** More on the message routes *)

Lemma length_append_string (a b : string) :
  String.length (a +:+ b) = (String.length a + String.length b)%nat.
Proof. induction a as [|c a IH]; simpl; [done|]. by rewrite IH. Qed.

Lemma length_slice_to n s : (String.length (slice_to n s) ≤ n)%nat.
Proof.
  unfold slice_to. revert s. induction n as [|n IH]; intros [|c s]; simpl; try lia.
  specialize (IH s). lia.
Qed.

Lemma len_preview content : len (preview content) ≤ 53.
Proof.
  unfold preview, len.
  destruct (Z.ltb_spec 50 (Z.of_nat (String.length content))); [|lia].
  rewrite length_append_string. pose proof (length_slice_to 50 content).
  simpl. lia.
Qed.

Lemma update_first_lookup query fields coll (i : nat) doc :
  coll !! i = Some doc →
  update_first query fields coll !! i = Some doc ∨
  update_first query fields coll !! i = Some (fields ∪ doc).
Proof.
  revert i. induction coll as [|d coll IH]; intros i; simpl; [done|].
  destruct (matches query d).
  - destruct i as [|i]; simpl; [intros [= ->]; by right|by left].
  - destruct i as [|i]; simpl; [by left|apply IH].
Qed.

Lemma update_first_length query fields coll :
  length (update_first query fields coll) = length coll.
Proof.
  induction coll as [|d coll IH]; simpl; [done|].
  destruct (matches query d); simpl; by rewrite ?IH.
Qed.

Lemma find_one_snoc_match query coll doc :
  matches query doc = true → is_Some (find_one query (coll ++ [doc])).
Proof.
  intros Hdoc. induction coll as [|d coll IH]; simpl.
  - rewrite Hdoc. by eexists.
  - destruct (matches query d); [by eexists|done].
Qed.

Lemma summary_other_keys last_message t (doc : pydict) k :
  k ≠ "last_message" → k ≠ "last_activity" →
  (summary last_message t ∪ doc) !! k = doc !! k.
Proof.
  intros H1 H2. apply lookup_union_r. unfold summary.
  by rewrite lookup_insert_ne, lookup_singleton_ne.
Qed.

Section RoutesFacts.

Variable clock : nat → datetime.
Variable uuid4 : nat → string.

Local Abbreviation create_message := (create_message clock uuid4).
Local Abbreviation ai_chat_response := (ai_chat_response clock uuid4).
Local Abbreviation create_conversation := (create_conversation clock uuid4).
Local Abbreviation human_message := (human_message clock uuid4).
Local Abbreviation ai_message := (ai_message clock uuid4).
Local Abbreviation serve := (serve clock uuid4).
Local Abbreviation serve_all := (serve_all clock uuid4).
Local Abbreviation conv_step := (conv_step clock).

(** X4. The message route applies its steps one by one and undoes none.
    When the insert is taken and the summary update raises, the route
    raises, the message document stays in the collection, and neither a
    conversation nor the sent packets change.  When only the emit raises,
    the route raises with both the message document and the new summary in
    the store, and no packet sent. *)
Theorem create_message_partial_failure env msg_data w :
  insert_one_error env = None →
  (∀ e, update_one_error env = Some e →
     (create_message env msg_data w).1 = Raised e ∧
     db_messages (create_message env msg_data w).2 =
       db_messages w ++ [prepare_for_mongo (Message.dict (human_message msg_data w))] ∧
     db_conversations (create_message env msg_data w).2 = db_conversations w ∧
     sio_sent (create_message env msg_data w).2 = sio_sent w) ∧
  (∀ e, update_one_error env = None → emit_error env = Some e →
     (create_message env msg_data w).1 = Raised e ∧
     db_messages (create_message env msg_data w).2 =
       db_messages w ++ [prepare_for_mongo (Message.dict (human_message msg_data w))] ∧
     db_conversations (create_message env msg_data w).2 =
       update_first {["id" := PyStr (MessageCreate.conversation_id msg_data)]}
                    (summary (preview (MessageCreate.content msg_data))
                             (clock (S (clock_reads w))))
                    (db_conversations w) ∧
     sio_sent (create_message env msg_data w).2 = sio_sent w).
Proof.
  intros Hi. destruct env as [r e1 e2 e3]; simpl in Hi; subst e1. split.
  - intros e He; simpl in He; subst e2. by exec.
  - intros e Hu He; simpl in Hu, He; subst e2 e3. by exec.
Qed.

Lemma ai_chat_response_accepted env msg_data w m w' :
  ai_chat_response env msg_data w = (Returned (RespMessage m), w') →
  ∃ text,
    send_message env = Returned text ∧
    m = ai_message text msg_data w ∧
    db_messages w' = db_messages w ++ [prepare_for_mongo (Message.dict m)] ∧
    db_conversations w' =
      update_first {["id" := PyStr (MessageCreate.conversation_id msg_data)]}
                   (summary ("AI: " +:+ preview text) (clock (S (clock_reads w))))
                   (db_conversations w) ∧
    sio_sent w' =
      sio_sent w ++
      ((λ sid, (sid, "new_message", Message.dict m)) <$>
         recipients (PyStr (MessageCreate.conversation_id msg_data)) None (sio_rooms w)).
Proof.
  destruct env as [[text|e0] [e1|] [e2|] [e3|]]; exec; intros [= <- <-].
  by exists text.
Qed.

(** X5. After an accepted AI reply for a conversation that exists, the
    conversation's [last_message] is "AI: " followed by the reply when the
    reply has at most 50 characters, and "AI: ", the first 50 characters of
    the reply and "..." when it is longer; either way it has at most 57
    characters.  The returned message carries the whole reply. *)
Theorem ai_reply_summary_preview env msg_data w m w' :
  ai_chat_response env msg_data w = (Returned (RespMessage m), w') →
  is_Some (conversation_doc (MessageCreate.conversation_id msg_data) w) →
  send_message env = Returned (Message.content m) ∧
  (len (Message.content m) ≤ 50 →
     last_message_of (MessageCreate.conversation_id msg_data) w' =
       Some (PyStr ("AI: " +:+ Message.content m))) ∧
  (50 < len (Message.content m) →
     last_message_of (MessageCreate.conversation_id msg_data) w' =
       Some (PyStr ("AI: " +:+ slice_to 50 (Message.content m) +:+ "..."))) ∧
  (∃ p, last_message_of (MessageCreate.conversation_id msg_data) w' = Some (PyStr p) ∧
        len p ≤ 57).
Proof.
  intros Hrun [conv Hconv].
  apply ai_chat_response_accepted in Hrun as (text & Htext & -> & _ & Hconvs & _).
  open_ai_message.
  assert (last_message_of (MessageCreate.conversation_id msg_data) w' =
          Some (PyStr ("AI: " +:+ preview text))) as Hlast.
  { unfold last_message_of, conversation_doc in *. rewrite Hconvs.
    rewrite find_one_update_first_same by apply untouched_id_summary.
    rewrite Hconv. simpl. apply summary_last_message. }
  split; [done|]. split; [|split].
  - intros Hshort. rewrite Hlast. unfold preview.
    destruct (Z.ltb_spec 50 (len text)); [lia|done].
  - intros Hlong. rewrite Hlast. unfold preview.
    destruct (Z.ltb_spec 50 (len text)); [done|lia].
  - eexists. split; [exact Hlast|]. pose proof (len_preview text) as Hp.
    unfold len in *. rewrite length_append_string. simpl. lia.
Qed.

(** X6. However long the content, the summary that an accepted
    [create_message] leaves on an existing conversation has at most 53
    characters, while the message document keeps the content's full
    length. *)
Theorem create_message_summary_is_bounded env msg_data w m w' :
  create_message env msg_data w = (Returned m, w') →
  is_Some (conversation_doc (MessageCreate.conversation_id msg_data) w) →
  (∃ p, last_message_of (MessageCreate.conversation_id msg_data) w' = Some (PyStr p) ∧
        len p ≤ 53 ∧ len p ≤ len (MessageCreate.content msg_data) + 3) ∧
  ∃ doc stored,
    last (db_messages w') = Some doc ∧
    doc !! "content" = Some (PyStr stored) ∧
    len stored = len (MessageCreate.content msg_data).
Proof.
  intros Hrun [conv Hconv].
  apply create_message_accepted in Hrun as (-> & Hmsgs & Hconvs & _ & _).
  split.
  - exists (preview (MessageCreate.content msg_data)). split; [|split].
    + unfold last_message_of, conversation_doc in *. rewrite Hconvs.
      rewrite find_one_update_first_same by apply untouched_id_summary.
      rewrite Hconv. simpl. apply summary_last_message.
    + apply len_preview.
    + unfold preview, len.
      destruct (Z.ltb_spec 50 (Z.of_nat (String.length (MessageCreate.content msg_data))));
        [|lia].
      rewrite length_append_string.
      pose proof (length_slice_to 50 (MessageCreate.content msg_data)). simpl. lia.
  - eexists _, _. rewrite Hmsgs, last_snoc. split; [done|]. split; [|done].
    by destruct (stored_message_fields (human_message msg_data w))
      as (_ & _ & _ & ? & _).
Qed.

Lemma serve_append_only env req w :
  (∃ new, db_messages (serve env req w).2 = db_messages w ++ new) ∧
  (∃ new, sio_sent (serve env req w).2 = sio_sent w ++ new) ∧
  db_users (serve env req w).2 = db_users w ∧
  sio_rooms (serve env req w).2 = sio_rooms w.
Proof.
  destruct req as [conv_data|msg_data|msg_data];
    destruct env as [[text|e0] [e1|] [e2|] [e3|]]; exec;
    (split; [|split; [|done]]);
    first [by exists [] ; rewrite app_nil_r | by eexists].
Qed.

(** X7. The three write routes never rewrite or drop what is already
    there: along any sequence of conversation creations and message or AI
    submissions, whatever fails in between, the messages collection and the
    list of sent packets only grow at the end, and the users collection and
    the room table stay as they were. *)
Theorem serve_all_appends_only reqs w :
  db_messages w `prefix_of` db_messages (serve_all reqs w) ∧
  sio_sent w `prefix_of` sio_sent (serve_all reqs w) ∧
  db_users (serve_all reqs w) = db_users w ∧
  sio_rooms (serve_all reqs w) = sio_rooms w.
Proof.
  revert w. induction reqs as [|[env req] reqs IH]; intros w.
  - by repeat split.
  - destruct (serve_append_only env req w) as ((m & Hm) & (p & Hp) & Hu & Hr).
    destruct (IH (serve env req w).2) as (IHm & IHp & IHu & IHr).
    change (serve_all ((env, req) :: reqs) w) with (serve_all reqs (serve env req w).2).
    repeat split.
    + etrans; [|exact IHm]. rewrite Hm. by apply prefix_app_r.
    + etrans; [|exact IHp]. rewrite Hp. by apply prefix_app_r.
    + by rewrite IHu.
    + by rewrite IHr.
Qed.

Lemma conv_step_keeps_fields w w' (i : nat) doc :
  conv_step w w' →
  db_conversations w !! i = Some doc →
  ∃ doc', db_conversations w' !! i = Some doc' ∧
          ∀ k, k ≠ "last_message" → k ≠ "last_activity" → doc' !! k = doc !! k.
Proof.
  intros [Hsame _|cid p k Hupd _ _|new k Hins _ _ _] Hdoc.
  - exists doc. by rewrite Hsame.
  - rewrite Hupd.
    destruct (update_first_lookup {["id" := PyStr cid]} (summary p (clock k))
                (db_conversations w) i doc Hdoc) as [->| ->].
    + by exists doc.
    + eexists. split; [done|]. intros. by apply summary_other_keys.
  - exists doc. rewrite Hins. split; [|done]. by apply lookup_app_l_Some.
Qed.

(** X8. A conversation document, once stored, keeps its place in the
    collection, and the routes change nothing of it but [last_message] and
    [last_activity]: along any sequence of requests its id, name,
    participants and creation instant stay what they were. *)
Theorem serve_all_keeps_conversation_fields reqs w (i : nat) doc :
  db_conversations w !! i = Some doc →
  ∃ doc', db_conversations (serve_all reqs w) !! i = Some doc' ∧
          ∀ k, k ≠ "last_message" → k ≠ "last_activity" → doc' !! k = doc !! k.
Proof.
  revert w doc. induction reqs as [|[env req] reqs IH]; intros w doc Hdoc.
  - by exists doc.
  - change (serve_all ((env, req) :: reqs) w) with (serve_all reqs (serve env req w).2).
    destruct (conv_step_keeps_fields w (serve env req w).2 i doc
                (serve_conv_step clock uuid4 env req w) Hdoc) as (doc1 & Hdoc1 & Hk1).
    destruct (IH _ doc1 Hdoc1) as (doc2 & Hdoc2 & Hk2).
    exists doc2. split; [done|]. intros k H1 H2. by rewrite Hk2, Hk1.
Qed.

Lemma create_conversation_accepted env conv_data w c w' :
  create_conversation env conv_data w = (Returned c, w') →
  c = Conversation.mk (uuid4 (uuid_draws w)) (ConversationCreate.name conv_data)
        (ConversationCreate.participants conv_data)
        (clock (clock_reads w)) None (clock (S (clock_reads w))) ∧
  db_conversations w' = db_conversations w ++ [prepare_for_mongo (Conversation.dict c)] ∧
  db_messages w' = db_messages w ∧
  sio_sent w' = sio_sent w ∧
  sio_rooms w' = sio_rooms w.
Proof.
  destruct env as [r [e1|] e2 e3]; exec; intros [= <- <-]; done.
Qed.

Lemma stored_conversation_id (c : Conversation.t) :
  matches {["id" := PyStr (Conversation.id c)]}
          (prepare_for_mongo (Conversation.dict c)) = true.
Proof.
  apply matches_true. intros k v [<- <-]%lookup_singleton_Some.
  unfold prepare_for_mongo, Conversation.dict. rewrite lookup_fmap.
  by simplify_map_eq.
Qed.

(** X9. Creating a conversation sends no packet and touches no message; the
    new document goes to the end of the collection with no [last_message]
    yet.  A message then submitted with the returned id always finds a
    conversation to update: after it is accepted, the first conversation of
    that id shows the preview of the content as [last_message], and the
    message document is the last of the messages collection. *)
Theorem create_conversation_then_message env1 env2 conv_data msg_data w c w1 m w2 :
  create_conversation env1 conv_data w = (Returned c, w1) →
  MessageCreate.conversation_id msg_data = Conversation.id c →
  create_message env2 msg_data w1 = (Returned m, w2) →
  sio_sent w1 = sio_sent w ∧
  db_messages w1 = db_messages w ∧
  (∃ doc, last (db_conversations w1) = Some doc ∧
          doc !! "id" = Some (PyStr (Conversation.id c)) ∧
          doc !! "last_message" = Some PyNone) ∧
  last_message_of (Conversation.id c) w2 =
    Some (PyStr (preview (MessageCreate.content msg_data))) ∧
  last (db_messages w2) = Some (prepare_for_mongo (Message.dict m)) ∧
  Message.conversation_id m = Conversation.id c.
Proof.
  intros Hc Hid Hm.
  apply create_conversation_accepted in Hc as (Hceq & Hconvs1 & Hmsgs1 & Hsent1 & _).
  apply create_message_accepted in Hm as (-> & Hmsgs2 & Hconvs2 & _ & _).
  split; [done|]. split; [done|]. split; [|split; [|split]].
  - eexists. rewrite Hconvs1, last_snoc. split; [done|].
    unfold prepare_for_mongo, Conversation.dict. rewrite !lookup_fmap.
    rewrite Hceq. by simplify_map_eq.
  - unfold last_message_of, conversation_doc. rewrite Hconvs2, Hid.
    rewrite find_one_update_first_same by apply untouched_id_summary.
    destruct (find_one_snoc_match {["id" := PyStr (Conversation.id c)]}
                (db_conversations w) _ (stored_conversation_id c)) as [doc Hdoc].
    rewrite Hconvs1, Hdoc. simpl. apply summary_last_message.
  - rewrite Hmsgs2. apply last_snoc.
  - by rewrite <- Hid.
Qed.

End RoutesFacts.

(** ** Listing what was stored *)

Lemma each_length {A B} (f : A → result B) l ys :
  each f l = Returned ys → length ys = length l.
Proof.
  revert ys. induction l as [|x l IH]; simpl; intros ys.
  - by intros [= <-].
  - destruct (f x) as [y|e]; [|done].
    destruct (each f l) as [ys'|e]; [|done].
    intros [= <-]. simpl. by rewrite (IH ys').
Qed.

Lemma each_snoc {A B} (f : A → result B) l x ys y :
  each f l = Returned ys → f x = Returned y →
  each f (l ++ [x]) = Returned (ys ++ [y]).
Proof.
  intros Hl Hx. revert ys Hl. induction l as [|x' l IH]; simpl; intros ys.
  - intros [= <-]. by rewrite Hx.
  - destruct (f x') as [y'|e]; [|done].
    destruct (each f l) as [ys'|e]; [|done].
    intros [= <-]. by rewrite (IH ys').
Qed.

Lemma find_snoc query coll doc :
  find query (coll ++ [doc]) =
    find query coll ++ (if matches query doc then [doc] else []).
Proof.
  unfold find. rewrite filter_app. f_equal.
  destruct (matches query doc) eqn:Hdoc.
  - by rewrite filter_cons_True.
  - rewrite filter_cons_False; [done|]. by rewrite Hdoc.
Qed.

Lemma matches_conversation_id (m : Message.t) conversation_id :
  matches {["conversation_id" := PyStr conversation_id]}
          (prepare_for_mongo (Message.dict m)) =
    bool_decide (Message.conversation_id m = conversation_id).
Proof.
  destruct (stored_message_fields m) as (_ & _ & _ & _ & _ & _ & Hcid).
  unfold matches. apply bool_decide_ext. split.
  - intros H. specialize (H "conversation_id" (PyStr conversation_id)).
    simpl in H. rewrite lookup_singleton_eq, Hcid in H. by injection (H eq_refl).
  - intros <- k v [<- <-]%lookup_singleton_Some. exact Hcid.
Qed.

Section ListingFacts.

Variable clock : nat → datetime.
Variable uuid4 : nat → string.
Variable fromisoformat : string → option datetime.
Variable Message_validate : pydict → result Message.t.

Local Abbreviation create_message := (create_message clock uuid4).
Local Abbreviation parse_from_mongo := (parse_from_mongo fromisoformat).
Local Abbreviation get_messages := (get_messages fromisoformat Message_validate).

(** X10. Suppose the model constructor accepts the documents the routes
    store.  If the listing of a conversation succeeds with fewer than 1000
    messages, then after one more accepted submission to that conversation
    the listing is the old one with the new message at its end; and a
    submission to another conversation leaves the listing as it was. *)
Theorem get_messages_after_create_message env msg_data conversation_id w old m w' :
  (∀ m', Message_validate (parse_from_mongo (prepare_for_mongo (Message.dict m'))) =
           Returned m') →
  (get_messages None conversation_id w).1 = Returned old →
  create_message env msg_data w = (Returned m, w') →
  (MessageCreate.conversation_id msg_data = conversation_id →
   (length old < 1000)%nat →
   (get_messages None conversation_id w').1 = Returned (old ++ [m])) ∧
  (MessageCreate.conversation_id msg_data ≠ conversation_id →
   (get_messages None conversation_id w').1 = Returned old).
Proof.
  intros Hvalid Hold Hrun.
  apply create_message_accepted in Hrun as (Hm & Hmsgs & _).
  open_listing_in_all. simpl in *.
  rewrite Hmsgs, find_snoc, matches_conversation_id.
  assert (Message.conversation_id m = MessageCreate.conversation_id msg_data) as ->
    by by rewrite Hm.
  split.
  - intros Heq Hlen. rewrite bool_decide_eq_true_2 by done.
    pose proof (each_length _ _ _ Hold) as Hlen'.
    rewrite length_take in Hlen'.
    rewrite take_ge in Hold by lia. rewrite take_ge by (rewrite length_app; simpl; lia).
    by apply each_snoc.
  - intros Hne. rewrite bool_decide_eq_false_2 by done. by rewrite app_nil_r.
Qed.

(** X11. The listing route reads and never writes; it hands back at most
    1000 messages, and raises what the query raises.  Once the store holds
    1000 or more messages of a conversation, a newly accepted message
    changes nothing in what the listing of that conversation answers: the
    new message is not in it. *)
Theorem get_messages_lists_first_1000 find_error conversation_id w :
  (get_messages find_error conversation_id w).2 = w ∧
  (∀ listed, (get_messages find_error conversation_id w).1 = Returned listed →
             (length listed ≤ 1000)%nat) ∧
  (∀ e, find_error = Some e →
        (get_messages find_error conversation_id w).1 = Raised e) ∧
  (∀ env msg_data m w',
     (1000 ≤ length (find {["conversation_id" := PyStr conversation_id]}
                          (db_messages w)))%nat →
     create_message env msg_data w = (Returned m, w') →
     (get_messages None conversation_id w').1 =
       (get_messages None conversation_id w).1).
Proof.
  open_listing. repeat split.
  - by destruct find_error.
  - intros listed. destruct find_error; simpl; [done|].
    intros Hl%each_length. rewrite Hl, length_take. lia.
  - by intros e ->.
  - intros env msg_data m w' Hfull Hrun.
    apply create_message_accepted in Hrun as (_ & Hmsgs & _).
    simpl. rewrite Hmsgs, find_snoc. by rewrite take_app_le.
Qed.

End ListingFacts.

(** ** Users *)

Lemma stored_user_fields (u : User.t) :
  let doc := prepare_for_mongo (User.dict u) in
  doc !! "id" = Some (PyStr (User.id u)) ∧
  doc !! "username" = Some (PyStr (User.username u)) ∧
  doc !! "email" = Some (PyStr (User.email u)) ∧
  doc !! "status" = Some (PyStr (User.status u)) ∧
  doc !! "created_at" = Some (PyIso (User.created_at u)).
Proof.
  unfold prepare_for_mongo, User.dict. simpl.
  repeat split; rewrite lookup_fmap; by simplify_map_eq.
Qed.

Lemma untouched_id_status user_id status :
  untouched {["id" := PyStr user_id]} {["status" := PyStr status]}.
Proof.
  intros k [v Hk]. apply lookup_singleton_Some in Hk as [<- _].
  by rewrite lookup_singleton_ne.
Qed.

Lemma update_user_status_run env user_id status w :
  update_user_status env user_id status w =
    match update_one_error env with
    | Some e => (Raised e, w)
    | None =>
        let w1 := set_db_users w (update_first {["id" := PyStr user_id]}
                                               {["status" := PyStr status]}
                                               (db_users w)) in
        match emit_error env with
        | Some e => (Raised e, w1)
        | None =>
            (Returned {["success" := PyBool true]},
             set_sio_sent w1
               (sio_sent w ++
                ((λ sid, (sid, "user_status_changed",
                          <["user_id" := PyStr user_id]> {["status" := PyStr status]}))
                   <$> recipients PyNone None (sio_rooms w))))
        end
    end.
Proof. destruct env as [r e1 [e2|] [e3|]]; by exec. Qed.

Lemma update_user_status_db_users env user_id status w :
  update_one_error env = None →
  db_users (update_user_status env user_id status w).2 =
    update_first {["id" := PyStr user_id]} {["status" := PyStr status]} (db_users w).
Proof.
  intros Hupd. rewrite update_user_status_run, Hupd. by destruct (emit_error env).
Qed.

Lemma update_user_status_sets_only_status_aux env user_id status w doc :
  update_one_error env = None →
  find_one {["id" := PyStr user_id]} (db_users w) = Some doc →
  find_one {["id" := PyStr user_id]}
           (db_users (update_user_status env user_id status w).2) =
    Some (<["status" := PyStr status]> doc).
Proof.
  intros Hupd Hdoc. rewrite update_user_status_db_users by done.
  rewrite find_one_update_first_same, Hdoc by apply untouched_id_status.
  simpl. by rewrite insert_union_singleton_l.
Qed.

Lemma matches_id (v : pyval) (doc : pydict) :
  matches {["id" := v]} doc = true ↔ doc !! "id" = Some v.
Proof.
  rewrite matches_true. split.
  - intros H. apply H. apply lookup_singleton_eq.
  - by intros H k v' [<- <-]%lookup_singleton_Some.
Qed.

Lemma update_first_lookup_first query fields coll (i : nat) doc :
  coll !! i = Some doc →
  matches query doc = true →
  (∀ (j : nat) d, (j < i)%nat → coll !! j = Some d → matches query d = false) →
  update_first query fields coll !! i = Some (fields ∪ doc).
Proof.
  revert i. induction coll as [|d coll IH]; intros i; simpl; [done|].
  destruct i as [|i]; simpl.
  - intros [= ->] -> _. done.
  - intros Hdoc Hmatch Hbefore.
    rewrite (Hbefore 0%nat d ltac:(lia) eq_refl). simpl.
    apply IH; [done|done|].
    intros j d' Hj Hd'. apply (Hbefore (S j) d'); [lia|done].
Qed.

Lemma update_first_lookup_no_match query fields coll (i : nat) doc :
  coll !! i = Some doc →
  matches query doc = false →
  update_first query fields coll !! i = Some doc.
Proof.
  revert i. induction coll as [|d coll IH]; intros i; simpl; [done|].
  destruct (matches query d) eqn:Hd.
  - destruct i as [|i]; simpl; [|done]. intros [= ->]. congruence.
  - destruct i as [|i]; simpl; [done|apply IH].
Qed.

Lemma update_first_lookup_after query fields coll (i j : nat) d doc :
  (j < i)%nat →
  coll !! j = Some d →
  matches query d = true →
  coll !! i = Some doc →
  update_first query fields coll !! i = Some doc.
Proof.
  revert i j. induction coll as [|d0 coll IH]; intros i j; simpl; [done|].
  intros Hji Hd Hmatch Hdoc.
  destruct (matches query d0) eqn:Hd0.
  - destruct i as [|i]; [lia|done].
  - destruct i as [|i]; [lia|]. destruct j as [|j]; simpl in *.
    + injection Hd as ->. congruence.
    + apply (IH i j); [lia|done|done|done].
Qed.

(** X12. When the store takes the update, [update_user_status] rewrites one
    user document at most: the first one with the given id gets the new
    status, whatever string it is, and keeps all its other fields.  Every
    other document stays exactly as it was, status included: those with
    another id, and those with the same id that come later in the
    collection.  No document is added or removed, and conversations and
    messages are not touched.  This holds whether or not the emit that
    follows goes through. *)
Theorem update_user_status_sets_only_status env user_id status w :
  update_one_error env = None →
  db_users (update_user_status env user_id status w).2 =
    update_first {["id" := PyStr user_id]} {["status" := PyStr status]} (db_users w) ∧
  length (db_users (update_user_status env user_id status w).2) = length (db_users w) ∧
  (∀ (i : nat) doc,
     db_users w !! i = Some doc →
     doc !! "id" = Some (PyStr user_id) →
     (∀ (j : nat) d, (j < i)%nat → db_users w !! j = Some d →
                     d !! "id" ≠ Some (PyStr user_id)) →
     db_users (update_user_status env user_id status w).2 !! i =
       Some (<["status" := PyStr status]> doc)) ∧
  (∀ (i : nat) doc,
     db_users w !! i = Some doc →
     doc !! "id" ≠ Some (PyStr user_id) →
     db_users (update_user_status env user_id status w).2 !! i = Some doc) ∧
  (∀ (i j : nat) d doc,
     (j < i)%nat →
     db_users w !! j = Some d →
     d !! "id" = Some (PyStr user_id) →
     db_users w !! i = Some doc →
     db_users (update_user_status env user_id status w).2 !! i = Some doc) ∧
  (∀ doc, find_one {["id" := PyStr user_id]} (db_users w) = Some doc →
          find_one {["id" := PyStr user_id]}
                   (db_users (update_user_status env user_id status w).2) =
            Some (<["status" := PyStr status]> doc)) ∧
  db_conversations (update_user_status env user_id status w).2 = db_conversations w ∧
  db_messages (update_user_status env user_id status w).2 = db_messages w.
Proof.
  intros Hupd.
  pose proof (update_user_status_db_users env user_id status w Hupd) as Husers.
  split; [exact Husers|]. rewrite Husers.
  split; [apply update_first_length|].
  split.
  { intros i doc Hdoc Hid Hbefore.
    rewrite (update_first_lookup_first _ _ _ i doc Hdoc).
    - by rewrite insert_union_singleton_l.
    - by apply matches_id.
    - intros j d Hj Hd. apply not_true_is_false. rewrite matches_id.
      by apply (Hbefore j d). }
  split.
  { intros i doc Hdoc Hid. apply update_first_lookup_no_match; [done|].
    apply not_true_is_false. by rewrite matches_id. }
  split.
  { intros i j d doc Hji Hd Hid Hdoc.
    apply (update_first_lookup_after _ _ _ i j d doc); [done|done| |done].
    by apply matches_id. }
  split.
  { intros doc Hdoc.
    rewrite <- Husers. by apply update_user_status_sets_only_status_aux. }
  split; rewrite update_user_status_run, Hupd; by destruct (emit_error env).
Qed.

(** X13. [update_user_status] announces a status only after storing it, and
    does not take the stored status back.  When the update raises, the
    route raises with nothing changed and nothing sent.  When the update is
    taken and the emit raises, the route raises as well, but the new status
    is in the store and no session has been told. *)
Theorem update_user_status_failures env user_id status w :
  (∀ e, update_one_error env = Some e →
     update_user_status env user_id status w = (Raised e, w)) ∧
  (∀ e, update_one_error env = None → emit_error env = Some e →
     (update_user_status env user_id status w).1 = Raised e ∧
     db_users (update_user_status env user_id status w).2 =
       update_first {["id" := PyStr user_id]} {["status" := PyStr status]} (db_users w) ∧
     sio_sent (update_user_status env user_id status w).2 = sio_sent w).
Proof.
  rewrite update_user_status_run. split.
  - by intros e ->.
  - by intros e -> ->.
Qed.

Section UserFacts.

Variable clock : nat → datetime.
Variable uuid4 : nat → string.

Local Abbreviation create_user := (create_user clock uuid4).

Lemma create_user_run env user_data w :
  create_user env user_data w =
    let u := User.mk (uuid4 (uuid_draws w)) (UserCreate.username user_data)
               (UserCreate.email user_data) (UserCreate.avatar_url user_data)
               "offline" (clock (clock_reads w)) in
    let w0 := set_clock_reads (set_uuid_draws w (S (uuid_draws w)))
                              (S (clock_reads w)) in
    match insert_one_error env with
    | Some e => (Raised e, w0)
    | None => (Returned u, set_db_users w0 (db_users w ++ [prepare_for_mongo (User.dict u)]))
    end.
Proof.
  destruct env as [r [e1|] e2 e3];
    exec_create_user; done.
Qed.

(** X14. An accepted [create_user] appends one user document, with the
    given username and email and the status "offline", and sends nothing.
    A refused insert makes the route raise with no document added.  After
    an accepted creation, a status update for the returned id always finds
    a user: the first user document of that id then carries the new
    status. *)
Theorem create_user_then_status env user_data w :
  (∀ e, insert_one_error env = Some e →
     (create_user env user_data w).1 = Raised e ∧
     db_users (create_user env user_data w).2 = db_users w) ∧
  (∀ u w', create_user env user_data w = (Returned u, w') →
     User.username u = UserCreate.username user_data ∧
     User.email u = UserCreate.email user_data ∧
     User.status u = "offline" ∧
     db_users w' = db_users w ++ [prepare_for_mongo (User.dict u)] ∧
     sio_sent w' = sio_sent w ∧
     ∀ env' status, update_one_error env' = None →
       ∃ doc, find_one {["id" := PyStr (User.id u)]}
                       (db_users (update_user_status env' (User.id u) status w').2) =
                Some doc ∧
              doc !! "status" = Some (PyStr status)).
Proof.
  rewrite create_user_run. split.
  - by intros e ->.
  - intros u w'. destruct (insert_one_error env); [done|].
    cbv zeta. intros [= <- <-].
    repeat split.
    intros env' status Hupd.
    set (u := User.mk _ _ _ _ _ _).
    assert (matches {["id" := PyStr (User.id u)]} (prepare_for_mongo (User.dict u)) = true)
      as Hmatch.
    { apply matches_true. intros k v [<- <-]%lookup_singleton_Some.
      by destruct (stored_user_fields u) as (? & _). }
    destruct (find_one_snoc_match _ (db_users w) _ Hmatch) as [doc Hdoc].
    pose proof (update_user_status_sets_only_status_aux env' (User.id u) status
                (set_db_users
                   (set_clock_reads (set_uuid_draws w (S (uuid_draws w)))
                                    (S (clock_reads w)))
                   (db_users w ++ [prepare_for_mongo (User.dict u)]))
                doc Hupd Hdoc) as Hfound.
    cbn [db_users set_db_users] in Hfound.
    eexists. split; [exact Hfound|]. apply lookup_insert_eq.
Qed.

End UserFacts.

(** ** Rooms and typing events

    Conversation ids are strings, and the statements about joining and
    leaving are for ids that are non-empty strings: the room table is read
    here by equality of the value the handler passes on, which is how the
    server keys its rooms for strings. *)

Lemma enter_room_rooms sid room w r s :
  (r, s) ∈ sio_rooms (sio_enter_room sid room w).2 ↔
  (r, s) ∈ sio_rooms w ∨ (r, s) = (room, sid).
Proof.
  unfold sio_enter_room. simpl. case_bool_decide as Hin; simpl.
  - split; [by left|]. by intros [?| ->].
  - rewrite elem_of_app, list_elem_of_singleton. done.
Qed.

Lemma enter_room_other_fields sid room w :
  sio_sent (sio_enter_room sid room w).2 = sio_sent w ∧
  db_users (sio_enter_room sid room w).2 = db_users w ∧
  db_conversations (sio_enter_room sid room w).2 = db_conversations w ∧
  db_messages (sio_enter_room sid room w).2 = db_messages w.
Proof. unfold sio_enter_room. simpl. by case_bool_decide. Qed.

Lemma leave_room_rooms sid room w r s :
  (r, s) ∈ sio_rooms (sio_leave_room sid room w).2 ↔
  (r, s) ∈ sio_rooms w ∧ (r, s) ≠ (room, sid).
Proof. unfold sio_leave_room. simpl. rewrite list_elem_of_filter. tauto. Qed.

Lemma join_conversation_run env sid data w :
  truthy (get data "conversation_id") = true →
  join_conversation env sid data w =
    let room := get data "conversation_id" in
    let w1 := (sio_enter_room sid room w).2 in
    match emit_error env with
    | Some e => (Raised e, w1)
    | None =>
        (Returned tt,
         set_sio_sent w1
           (sio_sent w1 ++
            ((λ s, (s, "joined_conversation", {["conversation_id" := room]}))
               <$> recipients (PyStr sid) None (sio_rooms w1))))
    end.
Proof.
  intros Htruthy. unfold join_conversation. rewrite Htruthy.
  destruct env as [r e1 e2 [e3|]];
    cbv [mbind handler_bind sio_emit fail_or emit_error sio_enter_room]; done.
Qed.

Lemma leave_conversation_run sid data w :
  truthy (get data "conversation_id") = true →
  leave_conversation sid data w = sio_leave_room sid (get data "conversation_id") w.
Proof. intros Htruthy. unfold leave_conversation. by rewrite Htruthy. Qed.

Lemma typing_stop_emits env sid data room w :
  data !! "conversation_id" = Some (PyStr room) →
  room ≠ "" →
  emit_error env = None →
  typing_stop env sid data w =
    (Returned tt,
     set_sio_sent w
       (sio_sent w ++
        ((λ s, (s, "user_typing",
                <["user_id" := get data "user_id"]> {["typing" := PyBool false]}))
           <$> recipients (PyStr room) (Some sid) (sio_rooms w)))).
Proof.
  intros Hcid Hroom Hemit. unfold typing_stop.
  assert (get data "conversation_id" = PyStr room) as ->
    by (unfold get; by rewrite Hcid).
  simpl. destruct (String.eqb_spec room ""); [done|]. simpl.
  destruct env as [r e1 e2 e3]; simpl in Hemit; subst e3. by exec.
Qed.

(** X15. An event that carries no usable conversation id (the key is
    missing, or its value is [None], the empty string, 0 or [False]) is
    dropped without a trace: [join_conversation], [leave_conversation],
    [typing_start] and [typing_stop] all return with the rooms, the sent
    packets and the store unchanged, and never reach the emit. *)
Theorem events_without_conversation_id_are_dropped env sid data w :
  truthy (get data "conversation_id") = false →
  join_conversation env sid data w = (Returned tt, w) ∧
  leave_conversation sid data w = (Returned tt, w) ∧
  typing_start env sid data w = (Returned tt, w) ∧
  typing_stop env sid data w = (Returned tt, w).
Proof.
  intros Hfalsy.
  unfold join_conversation, leave_conversation, typing_start, typing_stop.
  by rewrite Hfalsy.
Qed.

(** X16. A [typing_stop] event from session [sid] that carries the
    conversation id [room], with the emit going through, sends one
    [user_typing] packet to each session of the room other than [sid] and
    none to [sid].  Its payload has the user id and [typing = False], and,
    unlike that of [typing_start], no username.  Nothing is stored. *)
Theorem typing_stop_reaches_the_others env sid data room w :
  data !! "conversation_id" = Some (PyStr room) →
  room ≠ "" →
  emit_error env = None →
  let payload : pydict :=
    <["user_id" := get data "user_id"]> {["typing" := PyBool false]} in
  (typing_stop env sid data w).1 = Returned tt ∧
  (∀ p, p ∈ sent_since w (typing_stop env sid data w).2 ↔
        ∃ s, p = (s, "user_typing", payload) ∧
             s ∈ participants (PyStr room) (sio_rooms w) ∧ s ≠ sid) ∧
  payload !! "typing" = Some (PyBool false) ∧
  payload !! "username" = None ∧
  db_users (typing_stop env sid data w).2 = db_users w ∧
  db_conversations (typing_stop env sid data w).2 = db_conversations w ∧
  db_messages (typing_stop env sid data w).2 = db_messages w ∧
  sio_rooms (typing_stop env sid data w).2 = sio_rooms w.
Proof.
  intros Hcid Hroom Hemit payload.
  rewrite (typing_stop_emits env sid data room w Hcid Hroom Hemit).
  fold payload. unfold sent_since, set_sio_sent.
  cbn [fst snd sio_sent db_users db_conversations db_messages sio_rooms].
  rewrite drop_app_length. repeat split; try done.
  - intros (s & -> & Hs)%list_elem_of_fmap. exists s. split; [done|].
    apply elem_of_recipients in Hs as [? Hne]. split; [done|]. congruence.
  - intros (s & -> & Hs & Hne). apply list_elem_of_fmap. exists s. split; [done|].
    apply elem_of_recipients. split; [done|]. congruence.
Qed.

Lemma string_id_truthy (data : pydict) room :
  data !! "conversation_id" = Some (PyStr room) →
  room ≠ "" →
  get data "conversation_id" = PyStr room ∧
  truthy (get data "conversation_id") = true.
Proof.
  intros Hcid Hroom.
  assert (get data "conversation_id" = PyStr room) as ->
    by (unfold get; by rewrite Hcid).
  split; [done|]. simpl. by destruct (String.eqb_spec room "").
Qed.

(** X17. [join_conversation] with a conversation id that is a non-empty
    string puts the session into the room of that id before it emits: the
    membership is there whether the ack goes through or the emit raises.
    It adds that one membership and removes none, and joining a room the
    session is already in leaves the room table as it is.  The
    [joined_conversation] ack goes to the room named by the session's own
    id: when the session is alone in that room, the ack is one packet, to
    the session itself. *)
Theorem join_conversation_enters_then_acks env sid data room w :
  data !! "conversation_id" = Some (PyStr room) →
  room ≠ "" →
  let w' := (join_conversation env sid data w).2 in
  (∀ r s, (r, s) ∈ sio_rooms w' ↔ (r, s) ∈ sio_rooms w ∨ (r, s) = (PyStr room, sid)) ∧
  ((PyStr room, sid) ∈ sio_rooms w → sio_rooms w' = sio_rooms w) ∧
  db_conversations w' = db_conversations w ∧
  db_messages w' = db_messages w ∧
  (∀ e, emit_error env = Some e →
     (join_conversation env sid data w).1 = Raised e ∧ sio_sent w' = sio_sent w) ∧
  (emit_error env = None →
     (join_conversation env sid data w).1 = Returned tt ∧
     sent_since w w' =
       (λ s, (s, "joined_conversation", {["conversation_id" := PyStr room]}))
         <$> participants (PyStr sid) (sio_rooms w') ∧
     (participants (PyStr sid) (sio_rooms w) = [sid] → room ≠ sid →
      sent_since w w' =
        [(sid, "joined_conversation", {["conversation_id" := PyStr room]})])).
Proof.
  intros Hcid Hroom w'. subst w'.
  destruct (string_id_truthy data room Hcid Hroom) as [Hget Htruthy].
  rewrite (join_conversation_run env sid data w Htruthy). cbv zeta. rewrite Hget.
  destruct (enter_room_other_fields sid (PyStr room) w) as (Hsent & _ & Hconvs & Hmsgs).
  destruct (emit_error env) as [err|];
    cbn [fst snd sio_rooms sio_sent db_conversations db_messages set_sio_sent].
  - split; [intros r s; apply enter_room_rooms|].
    split.
    { intros Hin. unfold sio_enter_room. simpl. by rewrite bool_decide_eq_true_2. }
    split; [done|]. split; [done|]. split; [|done].
    by intros e [= <-].
  - split; [intros r s; apply enter_room_rooms|].
    split.
    { intros Hin. unfold sio_enter_room. simpl. by rewrite bool_decide_eq_true_2. }
    split; [done|]. split; [done|]. split; [done|].
    intros _. split; [done|].
    unfold sent_since, set_sio_sent. cbn [sio_sent].
    rewrite Hsent, drop_app_length, recipients_no_skip. split; [done|].
    intros Halone Hne.
    assert (participants (PyStr sid) (sio_rooms (sio_enter_room sid (PyStr room) w).2) =
            participants (PyStr sid) (sio_rooms w)) as ->.
    { unfold sio_enter_room. simpl. case_bool_decide; [done|]. simpl.
      unfold participants. rewrite filter_app, filter_cons_False, filter_nil, app_nil_r;
        [done|]. simpl. congruence. }
    by rewrite Halone.
Qed.

(** X18. [leave_conversation] with a conversation id that is a non-empty
    string removes the session from the room of that id and does nothing
    else: every other membership, of this session in other rooms and of
    other sessions in any room, stays; no packet is sent; and leaving a
    room the session is not in leaves the room table as it is.  In
    particular joining and then leaving brings a session that was not in
    the room back to the memberships it had. *)
Theorem leave_conversation_removes_one_membership env sid data room w :
  data !! "conversation_id" = Some (PyStr room) →
  room ≠ "" →
  let w' := (leave_conversation sid data w).2 in
  (leave_conversation sid data w).1 = Returned tt ∧
  (∀ r s, (r, s) ∈ sio_rooms w' ↔ (r, s) ∈ sio_rooms w ∧ (r, s) ≠ (PyStr room, sid)) ∧
  (sid ∉ participants (PyStr room) (sio_rooms w')) ∧
  ((PyStr room, sid) ∉ sio_rooms w → sio_rooms w' = sio_rooms w) ∧
  sio_sent w' = sio_sent w ∧
  (∀ r s, (r, s) ∈ sio_rooms
            (leave_conversation sid data (join_conversation env sid data w).2).2 ↔
          (r, s) ∈ sio_rooms w ∧ (r, s) ≠ (PyStr room, sid)).
Proof.
  intros Hcid Hroom w'. subst w'.
  destruct (string_id_truthy data room Hcid Hroom) as [Hget Htruthy].
  rewrite !(leave_conversation_run sid data _ Htruthy). rewrite Hget.
  split; [done|]. split; [intros r s; apply leave_room_rooms|].
  split; [rewrite elem_of_participants, leave_room_rooms; by intros [_ ?]|].
  split.
  { intros Hnot. unfold sio_leave_room. simpl.
    induction (sio_rooms w) as [|p l IH]; [done|].
    apply not_elem_of_cons in Hnot as [Hp Hl].
    rewrite filter_cons_True by done. by rewrite IH. }
  split; [done|].
  intros r s. rewrite leave_room_rooms.
  assert (sio_rooms (join_conversation env sid data w).2 =
          sio_rooms (sio_enter_room sid (PyStr room) w).2) as ->.
  { rewrite (join_conversation_run env sid data w Htruthy). cbv zeta. rewrite Hget.
    by destruct (emit_error env). }
  rewrite enter_room_rooms. split.
  - intros [[?| ->] Hne]; done.
  - intros [? ?]. split; [by left|done].
Qed.

(** X19. Joining is what makes typing events arrive, and leaving stops
    them.  Once session [b] has joined the conversation [room], a
    [typing_start] for that room from another session [a] sends [b] the
    [user_typing] packet; once [b] has left again, the same event sends [b]
    nothing. *)
Theorem typing_follows_membership env a b data_a data_b room w :
  data_a !! "conversation_id" = Some (PyStr room) →
  data_b !! "conversation_id" = Some (PyStr room) →
  room ≠ "" →
  a ≠ b →
  emit_error env = None →
  let payload : pydict :=
    <["user_id" := get data_a "user_id"]>
    (<["username" := get data_a "username"]> {["typing" := PyBool true]}) in
  let joined := (join_conversation env b data_b w).2 in
  let left := (leave_conversation b data_b joined).2 in
  (b, "user_typing", payload) ∈ sent_since joined (typing_start env a data_a joined).2 ∧
  ∀ event d, (b, event, d) ∉ sent_since left (typing_start env a data_a left).2.
Proof.
  intros Ha Hb Hroom Hab Hemit payload joined left.
  assert (get data_b "conversation_id" = PyStr room) as Hget
    by (unfold get; by rewrite Hb).
  assert (truthy (get data_b "conversation_id") = true) as Htruthy.
  { rewrite Hget. simpl. by destruct (String.eqb_spec room ""). }
  assert (sio_rooms joined = sio_rooms (sio_enter_room b (PyStr room) w).2) as Hjoined.
  { subst joined. rewrite (join_conversation_run env b data_b w Htruthy), Hemit.
    cbv zeta. by rewrite Hget. }
  assert (sio_rooms left = sio_rooms (sio_leave_room b (PyStr room) joined).2) as Hleft.
  { subst left. by rewrite (leave_conversation_run b data_b _ Htruthy), Hget. }
  split.
  - rewrite (typing_start_emits env a data_a room joined Ha Hroom Hemit).
    fold payload. unfold sent_since, set_sio_sent. cbn [snd sio_sent].
    rewrite drop_app_length. apply list_elem_of_fmap. exists b. split; [done|].
    apply elem_of_recipients. split; [|congruence].
    rewrite elem_of_participants, Hjoined. apply enter_room_rooms. by right.
  - intros event d.
    rewrite (typing_start_emits env a data_a room left Ha Hroom Hemit).
    unfold sent_since, set_sio_sent. cbn [snd sio_sent].
    rewrite drop_app_length. intros (s & [= <- _ _] & Hs)%list_elem_of_fmap.
    apply elem_of_recipients in Hs as [Hs _].
    rewrite elem_of_participants, Hleft in Hs.
    apply leave_room_rooms in Hs as [_ Hne]. done.
Qed.

(** ** The further routes on the small deployment *)

Lemma prepare_for_mongo_strips_datetimes_witness :
  prepare_for_mongo (Message.dict (human_message tick_clock counting_uuid hello lobby))
    !! "timestamp" = Some (PyIso 0) ∧
  prepare_for_mongo (Message.dict (human_message tick_clock counting_uuid hello lobby))
    !! "content" = Some (PyStr "hello").
Proof.
  destruct (prepare_for_mongo_strips_datetimes
              (Message.dict (human_message tick_clock counting_uuid hello lobby)))
    as (_ & Hdate & Hother & _).
  split.
  - apply Hdate. vm_compute; reflexivity.
  - apply Hother; [vm_compute; reflexivity|discriminate].
Defined.

Lemma parse_from_mongo_only_at_keys_witness :
  parse_from_mongo never_a_date general !! "last_activity" = Some (PyIso 0) ∧
  parse_from_mongo never_a_date
    (prepare_for_mongo
       (Conversation.dict (Conversation.mk "c1" "general" ["u1"; "u2"] 0 None 0)))
    !! "created_at" = Some (PyDatetime 0).
Proof.
  split.
  - refine (proj1 (proj2 (parse_from_mongo_only_at_keys never_a_date general))
              "last_activity" (PyIso 0) _ _); vm_compute; reflexivity.
  - refine (proj1 (proj2 (proj2 (proj2 (proj2
              (parse_from_mongo_only_at_keys never_a_date
                 (Conversation.dict
                    (Conversation.mk "c1" "general" ["u1"; "u2"] 0 None 0)))))))
              "created_at" 0 _ _); vm_compute; reflexivity.
Defined.

Lemma create_message_partial_failure_witness :
  (create_message tick_clock counting_uuid update_down hello lobby).1 =
    Raised (Exc "not primary") ∧
  db_messages (create_message tick_clock counting_uuid update_down hello lobby).2 =
    db_messages lobby ++
    [prepare_for_mongo (Message.dict (human_message tick_clock counting_uuid hello lobby))] ∧
  db_conversations (create_message tick_clock counting_uuid update_down hello lobby).2 =
    db_conversations lobby ∧
  sio_sent (create_message tick_clock counting_uuid update_down hello lobby).2 =
    sio_sent lobby.
Proof.
  apply (proj1 (create_message_partial_failure tick_clock counting_uuid update_down
                  hello lobby eq_refl) (Exc "not primary")).
  reflexivity.
Defined.

Lemma ai_reply_summary_preview_witness :
  last_message_of "c1" (ai_chat_response tick_clock counting_uuid chatty hello quiet).2 =
    Some (PyStr "AI: 0123456789abcdefghij0123456789abcdefghij0123456789...").
Proof.
  refine (proj1 (proj2 (proj2 (ai_reply_summary_preview tick_clock counting_uuid
            chatty hello quiet
            (ai_message tick_clock counting_uuid
               "0123456789abcdefghij0123456789abcdefghij0123456789abcdefghij"
               hello quiet)
            (ai_chat_response tick_clock counting_uuid chatty hello quiet).2 _ _))) _).
  - vm_compute; reflexivity.
  - eexists; vm_compute; reflexivity.
  - vm_compute; reflexivity.
Defined.

Lemma create_message_summary_is_bounded_witness :
  ∃ p, last_message_of "c1"
         (create_message tick_clock counting_uuid (healthy "") long_hello lobby).2 =
         Some (PyStr p) ∧
       len p ≤ 53 ∧ len p ≤ 60 + 3.
Proof.
  refine (proj1 (create_message_summary_is_bounded tick_clock counting_uuid
            (healthy "") long_hello lobby
            (human_message tick_clock counting_uuid long_hello lobby)
            (create_message tick_clock counting_uuid (healthy "") long_hello lobby).2 _ _)).
  - vm_compute; reflexivity.
  - eexists; vm_compute; reflexivity.
Defined.

Lemma serve_all_keeps_conversation_fields_witness :
  ∃ doc', db_conversations
            (serve_all tick_clock counting_uuid
               [(healthy "", CreateMessage hello); (chatty, AiChat hello)] lobby)
            !! 0%nat = Some doc' ∧
          ∀ k, k ≠ "last_message" → k ≠ "last_activity" → doc' !! k = general !! k.
Proof.
  apply (serve_all_keeps_conversation_fields tick_clock counting_uuid).
  reflexivity.
Defined.

Lemma create_conversation_then_message_witness :
  last_message_of "id"
    (create_message tick_clock counting_uuid (healthy "") hello_first
       (create_conversation tick_clock counting_uuid (healthy "") general_room
          empty_world).2).2 = Some (PyStr "hello").
Proof.
  refine (proj1 (proj2 (proj2 (proj2 (create_conversation_then_message
            tick_clock counting_uuid (healthy "") (healthy "") general_room hello_first
            empty_world
            (Conversation.mk "id" "general" ["u1"; "u2"] 0 None 1)
            (create_conversation tick_clock counting_uuid (healthy "") general_room
               empty_world).2
            (human_message tick_clock counting_uuid hello_first
               (create_conversation tick_clock counting_uuid (healthy "") general_room
                  empty_world).2)
            _ _ _ _))))).
  - vm_compute; reflexivity.
  - reflexivity.
  - vm_compute; reflexivity.
Defined.

Lemma get_messages_after_create_message_witness :
  (get_messages never_a_date read_message None "c1"
     (create_message tick_clock counting_uuid (healthy "") hello lobby).2).1 =
    Returned ([] ++ [human_message tick_clock counting_uuid hello lobby]).
Proof.
  refine (proj1 (get_messages_after_create_message tick_clock counting_uuid
            never_a_date read_message (healthy "") hello "c1" lobby []
            (human_message tick_clock counting_uuid hello lobby)
            (create_message tick_clock counting_uuid (healthy "") hello lobby).2
            _ _ _) _ _).
  - intros [id sender_id sender_username content message_type timestamp conversation_id].
    vm_compute; reflexivity.
  - vm_compute; reflexivity.
  - vm_compute; reflexivity.
  - reflexivity.
  - simpl; lia.
Defined.

Lemma get_messages_lists_first_1000_witness :
  (get_messages never_a_date read_message None "c1"
     (create_message tick_clock counting_uuid (healthy "") hello crowded).2).1 =
  (get_messages never_a_date read_message None "c1" crowded).1.
Proof.
  refine (proj2 (proj2 (proj2 (get_messages_lists_first_1000 tick_clock counting_uuid
            never_a_date read_message None "c1" crowded)))
            (healthy "") hello
            (human_message tick_clock counting_uuid hello crowded)
            (create_message tick_clock counting_uuid (healthy "") hello crowded).2 _ _).
  - vm_compute. lia.
  - apply injective_projections; [|reflexivity].
    apply create_message_healthy; reflexivity.
Defined.

Lemma update_user_status_sets_only_status_witness :
  length (db_users (update_user_status emit_down "id" "typing" staffed).2) = 1%nat ∧
  ∃ doc, find_one {["id" := PyStr "id"]}
           (db_users (update_user_status emit_down "id" "typing" staffed).2) = Some doc ∧
         doc !! "status" = Some (PyStr "typing") ∧
         doc !! "username" = Some (PyStr "alice").
Proof.
  destruct (update_user_status_sets_only_status emit_down "id" "typing" staffed eq_refl)
    as (_ & Hlen & _ & _ & _ & Hfind & _).
  split; [exact Hlen|].
  eexists. split; [apply Hfind; vm_compute; reflexivity|].
  split; vm_compute; reflexivity.
Defined.

Lemma update_user_status_failures_witness :
  update_user_status update_down "id" "typing" staffed =
    (Raised (Exc "not primary"), staffed).
Proof.
  apply (proj1 (update_user_status_failures update_down "id" "typing" staffed)).
  reflexivity.
Defined.

Lemma create_user_then_status_witness :
  ∃ doc, find_one {["id" := PyStr "id"]}
           (db_users (update_user_status (healthy "") "id" "online" staffed).2) = Some doc ∧
         doc !! "status" = Some (PyStr "online").
Proof.
  refine (proj2 (proj2 (proj2 (proj2 (proj2
            (proj2 (create_user_then_status tick_clock counting_uuid (healthy "") alice lobby)
               (User.mk "id" "alice" "alice@example.org" None "offline" 0) staffed _)))))
            (healthy "") "online" _).
  - vm_compute; reflexivity.
  - reflexivity.
Defined.

Lemma events_without_conversation_id_are_dropped_witness :
  join_conversation emit_down "s1" ∅ lobby = (Returned tt, lobby) ∧
  typing_start emit_down "s1" {["conversation_id" := PyStr ""]} lobby = (Returned tt, lobby).
Proof.
  split.
  - apply (events_without_conversation_id_are_dropped emit_down "s1" ∅ lobby).
    reflexivity.
  - apply (events_without_conversation_id_are_dropped emit_down "s1"
             {["conversation_id" := PyStr ""]} lobby).
    reflexivity.
Defined.

Lemma typing_stop_reaches_the_others_witness :
  ("s2", "user_typing",
   <["user_id" := PyStr "u1"]> ({["typing" := PyBool false]} : pydict))
    ∈ sent_since lobby (typing_stop (healthy "") "s1" alice_typing lobby).2.
Proof.
  destruct (typing_stop_reaches_the_others (healthy "") "s1" alice_typing "c1" lobby)
    as (_ & Hmem & _).
  - vm_compute; reflexivity.
  - discriminate.
  - reflexivity.
  - apply Hmem. exists "s2". split; [reflexivity|]. split; [|discriminate].
    vm_compute. right. left.
Defined.

Lemma join_conversation_enters_then_acks_witness :
  (PyStr "c1", "s3") ∈ sio_rooms (join_conversation (healthy "") "s3" join_c1 arrivals).2 ∧
  sent_since arrivals (join_conversation (healthy "") "s3" join_c1 arrivals).2 =
    [("s3", "joined_conversation", join_c1)].
Proof.
  destruct (join_conversation_enters_then_acks (healthy "") "s3" join_c1 "c1" arrivals)
    as (Hrooms & _ & _ & _ & _ & Hack).
  - vm_compute; reflexivity.
  - discriminate.
  - split.
    + apply Hrooms. right. reflexivity.
    + apply (proj2 (proj2 (Hack eq_refl))); [vm_compute; reflexivity|discriminate].
Defined.

Lemma leave_conversation_removes_one_membership_witness :
  ("s1" ∉ participants (PyStr "c1") (sio_rooms (leave_conversation "s1" join_c1 lobby).2)) ∧
  sio_sent (leave_conversation "s1" join_c1 lobby).2 = [].
Proof.
  destruct (leave_conversation_removes_one_membership (healthy "") "s1" join_c1 "c1" lobby)
    as (_ & _ & Hout & _ & Hsent & _).
  - vm_compute; reflexivity.
  - discriminate.
  - split; [exact Hout|exact Hsent].
Defined.

Lemma typing_follows_membership_witness :
  ("s3", "user_typing",
   <["user_id" := PyStr "u1"]>
   (<["username" := PyStr "alice"]> ({["typing" := PyBool true]} : pydict)))
    ∈ sent_since (join_conversation (healthy "") "s3" join_c1 arrivals).2
        (typing_start (healthy "") "s1" alice_typing
           (join_conversation (healthy "") "s3" join_c1 arrivals).2).2.
Proof.
  apply (typing_follows_membership (healthy "") "s1" "s3" alice_typing join_c1 "c1" arrivals).
  - vm_compute; reflexivity.
  - vm_compute; reflexivity.
  - discriminate.
  - discriminate.
  - reflexivity.
Defined.

(** ** One document that does not validate *)

Lemma each_raises {A B} (f : A → result B) l x e :
  x ∈ l → f x = Raised e → ∃ e', each f l = Raised e'.
Proof.
  intros Hx Hfx. induction l as [|y l IH]; [by apply not_elem_of_nil in Hx|].
  simpl. apply elem_of_cons in Hx as [<-|Hx].
  - rewrite Hfx. by eexists.
  - destruct (f y) as [b|e1]; [|by eexists].
    destruct (IH Hx) as [e' ->]. by eexists.
Qed.

Lemma find_all coll : find ∅ coll = coll.
Proof.
  unfold find. induction coll as [|d coll IH]; [done|].
  rewrite filter_cons_True; [by rewrite IH|].
  apply matches_true. intros k v Hk. by rewrite lookup_empty in Hk.
Qed.

Section ListingFailures.

Variable fromisoformat : string → option datetime.
Variable User_validate : pydict → result User.t.
Variable Conversation_validate : pydict → result Conversation.t.
Variable Message_validate : pydict → result Message.t.

Local Abbreviation parse_from_mongo := (parse_from_mongo fromisoformat).
Local Abbreviation get_users := (get_users fromisoformat User_validate).
Local Abbreviation get_conversations :=
  (get_conversations fromisoformat Conversation_validate).
Local Abbreviation get_messages := (get_messages fromisoformat Message_validate).

(** X20. The listing routes build every model instance inside one list
    comprehension, with nothing to catch a raise.  If a single document
    among those fetched (the first 1000 users or conversations, or the
    first 1000 messages of the conversation) makes the model constructor
    raise, the whole listing raises and hands back no document at all.  The
    users and conversations listings apply no filter: every stored document
    among the first 1000 is fetched. *)
Theorem listing_raises_on_one_bad_document w (i : nat) doc e :
  (i < 1000)%nat →
  (db_users w !! i = Some doc →
   User_validate (parse_from_mongo doc) = Raised e →
   ∃ e', (get_users None w).1 = Raised e') ∧
  (db_conversations w !! i = Some doc →
   Conversation_validate (parse_from_mongo doc) = Raised e →
   ∃ e', (get_conversations None w).1 = Raised e') ∧
  (∀ conversation_id,
     find {["conversation_id" := PyStr conversation_id]} (db_messages w) !! i = Some doc →
     Message_validate (parse_from_mongo doc) = Raised e →
     ∃ e', (get_messages None conversation_id w).1 = Raised e').
Proof.
  intros Hi.
  assert (∀ (l : list pydict), l !! i = Some doc → doc ∈ to_list 1000 l) as Hfetched.
  { intros l Hl. unfold to_list. apply list_elem_of_lookup. exists i.
    by rewrite lookup_take_lt. }
  open_listing.
  cbn [fst]. rewrite !find_all. split; [|split].
  - intros Hdoc Hbad.
    by apply (each_raises (λ user, User_validate (parse_from_mongo user)) _ doc e);
      [apply Hfetched|].
  - intros Hdoc Hbad.
    by apply (each_raises (λ conv, Conversation_validate (parse_from_mongo conv)) _ doc e);
      [apply Hfetched|].
  - intros conversation_id Hdoc Hbad.
    by apply (each_raises (λ msg, Message_validate (parse_from_mongo msg)) _ doc e);
      [apply Hfetched|].
Qed.

End ListingFailures.

Lemma listing_raises_on_one_bad_document_witness :
  ∃ e', (get_messages never_a_date read_message None "c1" damaged).1 = Raised e'.
Proof.
  refine (proj2 (proj2 (listing_raises_on_one_bad_document never_a_date
            (λ _, Raised (Exc "")) (λ _, Raised (Exc "")) read_message
            damaged 0 join_c1 (Exc "validation error") _)) "c1" _ _).
  - lia.
  - vm_compute; reflexivity.
  - vm_compute; reflexivity.
Defined.
